(** * MK DOCX to PDF Converter v2.1: a shallow embedding and its properties

    The script [MK_script_docx_to_pdf_2.1.py] lists the [.docx] files of the
    folder it lives in, starts Microsoft Word through COM, exports every file
    to PDF and prints progress text.

    The development has three layers.
    - The Python library functions the script calls ([os.path], [fnmatch],
      [glob], float arithmetic, [print], exceptions) are modelled in the
      modules [Str], [OsPath], [Fnmatch], [Glob], [PyFloat] and [Py].
    - The script's own functions keep their names: [ensure_pywin32],
      [list_docx_files], [convert_all_docx_in_folder], [print_intro], [main].
    - The theorems come last.

    Modelling conventions.
    - A string is a [string] of 8-bit characters.  [os.path.normcase] on
      Windows lowers the ASCII letters only.
    - The outside world is two records of answers.  [world] holds the
      folder, pip, the importer and what Word answers to the calls the script
      guards with a handler (the two imports, the pip call, [Documents.Open],
      [ExportAsFixedFormat], [Close]).  [host] holds the answers of the calls
      the script leaves unguarded: [CoInitialize], [DispatchEx], the write to
      [Visible], [Quit], [CoUninitialize] and [input].  Every one of these
      calls may raise.  A run is a pure function of both records and yields
      the list of [event]s it performed together with its [result].
    - The functions that make unguarded calls are written in the module
      [Run] for any host.  [ensure_pywin32], [word_session],
      [convert_all_docx_in_folder] and [main] outside the module are the runs
      on [host_returns], the host whose unguarded calls all return; the
      theorems about the loop, the reports and discovery are stated on them,
      the theorems about the release of Word and about the way a run ends on
      [Run] and any host.
    - [print] and [glob.glob] return normally.  An exception raised by Word
      is an instance of [Exception] and is represented by its text [str(e)].
    - [OsPath] does not set the drive of a Windows path apart, and [Glob]
      takes the directory part of a pattern literally; the comments of
      [OsPath.split], [OsPath.join] and [Glob.glob] say on which paths they
      are Python's functions, and [Glob.has_magic] and [folder_path] are the
      conditions the theorems carry where that matters. *)

From Stdlib Require Import ZArith List String Ascii Bool Lia.
From Stdlib Require Import DecimalString Floats.SpecFloat.
Import ListNotations.

Local Open Scope list_scope.
Local Open Scope string_scope.
Local Open Scope Z_scope.

(* ================================================================== *)
(** * Python strings *)

Module Str.

(** [s.startswith(p)] *)
Fixpoint startswith (s p : string) {struct p} : bool :=
  match p, s with
  | EmptyString, _ => true
  | String a p', String b s' => Ascii.eqb a b && startswith s' p'
  | String _ _, EmptyString => false
  end.

(** [s.endswith(p)]: some tail of [s] is [p]. *)
Fixpoint endswith (s p : string) : bool :=
  String.eqb s p ||
  match s with
  | EmptyString => false
  | String _ s' => endswith s' p
  end.

(** The highest index whose character satisfies [P], or [-1]. *)
Fixpoint rfind_if (P : ascii -> bool) (s : string) : Z :=
  match s with
  | EmptyString => -1
  | String a s' =>
      let r := rfind_if P s' in
      if 0 <=? r then r + 1 else if P a then 0 else -1
  end.

(** [s.rfind(c)] for a one-character [c]: the highest index holding [c],
    or [-1]. *)
Definition rfind (c : ascii) (s : string) : Z :=
  rfind_if (fun a => Ascii.eqb a c) s.

Fixpoint drop (n : nat) (s : string) : string :=
  match n, s with
  | O, _ => s
  | S n', String _ s' => drop n' s'
  | S _, EmptyString => EmptyString
  end.

Fixpoint take (n : nat) (s : string) : string :=
  match n, s with
  | O, _ => EmptyString
  | S n', String a s' => String a (take n' s')
  | S _, EmptyString => EmptyString
  end.

(** [s[i:]], [s[:j]] and [s[i:j]] for indices that are not negative. *)
Definition from (i : Z) (s : string) : string := drop (Z.to_nat i) s.
Definition upto (j : Z) (s : string) : string := take (Z.to_nat j) s.
Definition slice (i j : Z) (s : string) : string := from i (upto j s).

Fixpoint map (f : ascii -> ascii) (s : string) : string :=
  match s with
  | EmptyString => EmptyString
  | String a s' => String (f a) (map f s')
  end.

Fixpoint forallb (P : ascii -> bool) (s : string) : bool :=
  match s with
  | EmptyString => true
  | String a s' => P a && forallb P s'
  end.

Definition existsb (P : ascii -> bool) (s : string) : bool :=
  negb (forallb (fun a => negb (P a)) s).

(** [s.rstrip(chars)] with the set [chars] given as a predicate. *)
Fixpoint rstrip (P : ascii -> bool) (s : string) : string :=
  match s with
  | EmptyString => EmptyString
  | String a s' =>
      match rstrip P s' with
      | EmptyString => if P a then EmptyString else String a EmptyString
      | r => String a r
      end
  end.

(** [str(n)] for an integer. *)
Definition of_Z (n : Z) : string := NilZero.string_of_int (Z.to_int n).

(** The newline character, written [\n] in the script. *)
Definition nl : string := String (ascii_of_nat 10) EmptyString.

End Str.

(* ================================================================== *)
(** * [os.path]: [posixpath] and [ntpath] *)

Module OsPath.

Inductive flavour := posixpath | ntpath.

Definition sep (fl : flavour) : ascii :=
  match fl with posixpath => "/" | ntpath => "\" end.

Definition altsep (fl : flavour) : option ascii :=
  match fl with posixpath => None | ntpath => Some "/"%char end.

Definition is_sep (fl : flavour) (c : ascii) : bool :=
  Ascii.eqb c (sep fl) ||
  match altsep fl with Some a => Ascii.eqb c a | None => false end.

(** [c.lower()] on the ASCII letters. *)
Definition lower (c : ascii) : ascii :=
  let n := nat_of_ascii c in
  if (65 <=? n)%nat && (n <=? 90)%nat then ascii_of_nat (n + 32) else c.

(** [os.path.normcase]: the identity on POSIX; on Windows
    [s.replace('/', '\\').lower()]. *)
Definition normcase_char (fl : flavour) (c : ascii) : ascii :=
  match fl with
  | posixpath => c
  | ntpath => if Ascii.eqb c "/" then "\"%char else lower c
  end.

Definition normcase (fl : flavour) (s : string) : string :=
  Str.map (normcase_char fl) s.

(** The index of the last separator: [p.rfind(sep)], and on Windows
    [max(p.rfind(sep), p.rfind(altsep))]. *)
Definition sep_index (fl : flavour) (p : string) : Z :=
  match altsep fl with
  | None => Str.rfind (sep fl) p
  | Some a => Z.max (Str.rfind (sep fl) p) (Str.rfind a p)
  end.

(** [os.path.basename(p)]: [p[i:]] with [i] one past the last separator.
    On Windows Python looks for the separator after the drive; the result is
    the same whenever a separator follows the drive, as in every path made
    by joining a name to a folder path. *)
Definition basename (fl : flavour) (p : string) : string :=
  Str.from (sep_index fl p + 1) p.

(** [os.path.split(p)]: head and tail around the last separator; trailing
    separators are stripped from the head unless it consists of separators
    only.  This is [posixpath.split].  [ntpath.split] does the same to what
    follows the drive and puts the drive back in front, which gives the same
    pair whenever what precedes the last component is more than a drive
    and separators: the head of [C:\a\b] is [C:\a] in both, but for a file
    in the root of a drive, [C:\b], Python keeps the root [C:\] where this
    function gives [C:]. *)
Definition split (fl : flavour) (p : string) : string * string :=
  let i := sep_index fl p + 1 in
  let head := Str.upto i p in
  let tail := Str.from i p in
  if negb (String.eqb head EmptyString) && negb (Str.forallb (is_sep fl) head)
  then (Str.rstrip (is_sep fl) head, tail)
  else (head, tail).

Definition last_is_sep (fl : flavour) (path : string) : bool :=
  match fl with
  | posixpath => Str.endswith path (String (sep fl) EmptyString)
  | ntpath =>
      Str.endswith path (String (sep fl) EmptyString) ||
      Str.endswith path (String "/" EmptyString)
  end.

(** [os.path.join(path, b)] for two components.  This is [posixpath.join].
    It is [ntpath.join] when [b] has no drive and does not begin with a
    separator and [path] is empty or more than a drive: to the bare drive
    [C:] Python joins without a separator. *)
Definition join (fl : flavour) (path b : string) : string :=
  if match b with String c _ => is_sep fl c | EmptyString => false end
  then b
  else if String.eqb path EmptyString || last_is_sep fl path
       then path ++ b
       else path ++ String (sep fl) b.

(** [genericpath._splitext(p, sep, altsep, '.')]: the extension starts at
    the last dot, provided that dot comes after the last separator and
    after a character of the file name that is not a dot. *)
Definition splitext (fl : flavour) (p : string) : string * string :=
  let sepIndex := sep_index fl p in
  let dotIndex := Str.rfind "." p in
  if (sepIndex <? dotIndex) &&
     Str.existsb (fun c => negb (Ascii.eqb c "."))
                 (Str.slice (sepIndex + 1) dotIndex p)
  then (Str.upto dotIndex p, Str.from dotIndex p)
  else (p, EmptyString).

End OsPath.

(* ================================================================== *)
(** * [fnmatch] and [glob] *)

Module Fnmatch.

(** [fnmatch.fnmatchcase(name, pat)] for patterns made of literal
    characters, [?] and [*]. *)
Fixpoint fnmatchcase (pat name : string) : bool :=
  match pat with
  | EmptyString =>
      match name with EmptyString => true | _ => false end
  | String "*" pat' =>
      (fix star (n : string) : bool :=
         fnmatchcase pat' n ||
         match n with
         | EmptyString => false
         | String _ n' => star n'
         end) name
  | String "?" pat' =>
      match name with
      | EmptyString => false
      | String _ n' => fnmatchcase pat' n'
      end
  | String c pat' =>
      match name with
      | EmptyString => false
      | String d n' => Ascii.eqb c d && fnmatchcase pat' n'
      end
  end.

(** [fnmatch.filter(names, pat)]: pattern and names go through
    [os.path.normcase]. *)
Definition filter (fl : OsPath.flavour) (names : list string) (pat : string)
  : list string :=
  List.filter
    (fun name => fnmatchcase (OsPath.normcase fl pat) (OsPath.normcase fl name))
    names.

End Fnmatch.

Module Glob.

(** [glob._ishidden(path)]: [path[0] == '.'] *)
Definition ishidden (path : string) : bool :=
  match path with
  | String "." _ => true
  | _ => false
  end.

(** [glob._glob1(dirname, pattern)], [names] being what [os.scandir] lists
    in [dirname]. *)
Definition glob1 (fl : OsPath.flavour) (names : list string) (pattern : string)
  : list string :=
  let names :=
    if negb (ishidden pattern)
    then List.filter (fun x => negb (ishidden x)) names
    else names in
  Fnmatch.filter fl names pattern.

(** [glob.has_magic(s)]: [s] holds one of the characters [*], [?] and
    the opening bracket. *)
Definition has_magic (s : string) : bool :=
  Str.existsb
    (fun c => Ascii.eqb c "*" || Ascii.eqb c "?" || Ascii.eqb c "[") s.

(** [glob.glob(pathname)] for a [pathname] whose last component holds the
    wildcard and whose directory part is free of the three characters of
    [has_magic]: the pattern is split, the directory is listed ([names]) and
    the matching names are joined back to the directory part.  A directory
    part that holds one of the three characters is a pattern of its own to
    Python, which then lists other folders; that case is outside this
    function, and the theorems that name the folder listed carry the
    condition [has_magic base_dir = false]. *)
Definition glob (fl : OsPath.flavour) (names : list string) (pathname : string)
  : list string :=
  let (dirname, basename) := OsPath.split fl pathname in
  if String.eqb dirname EmptyString
  then glob1 fl names basename
  else List.map (OsPath.join fl dirname) (glob1 fl names basename).

End Glob.

(* ================================================================== *)
(** * Discovery: [list_docx_files] *)

(** [list_docx_files(base_dir)]; [names] is the content of the folder. *)
Definition list_docx_files (fl : OsPath.flavour) (names : list string)
  (base_dir : string) : list string :=
  let pattern := OsPath.join fl base_dir "*.docx" in
  List.filter
    (fun f => negb (Str.startswith (OsPath.basename fl f) "~$"))
    (Glob.glob fl names pattern).

(* ================================================================== *)
(** * Python floats: [int(index / total * 100)] *)

Module PyFloat.

(** IEEE 754 binary64, the format of a Python [float]. *)
Definition prec : Z := 53.
Definition emax : Z := 1024.

(** [float(n)], rounded to nearest even. *)
Definition of_int (n : Z) : spec_float := binary_normalize prec emax n 0 false.

(** [a / b] on two integers (true division) and [x * y] on two floats,
    both correctly rounded. *)
Definition truediv (a b : Z) : spec_float :=
  SFdiv prec emax (of_int a) (of_int b).
Definition mul (x y : spec_float) : spec_float := SFmul prec emax x y.

(** [int(x)]: truncation towards zero. *)
Definition to_int (x : spec_float) : Z :=
  match x with
  | S754_finite s m e =>
      let a := if 0 <=? e then Z.pos m * 2 ^ e else Z.pos m / 2 ^ (- e) in
      if s then - a else a
  | _ => 0
  end.

End PyFloat.

(** [percent = int(index / total * 100)], lines 118 and 122. *)
Definition percent (index total : Z) : Z :=
  PyFloat.to_int (PyFloat.mul (PyFloat.truediv index total) (PyFloat.of_int 100)).

(* ================================================================== *)
(** * Runs: events, exceptions and control flow *)

Module Py.

(** What the script does to the outside, in order.  An outcome [None]
    means that the call returned, [Some msg] that it raised an exception
    whose text is [msg]. *)
Inductive event :=
| Print (line : string)
| Input (prompt : string)
| Import (module : string) (outcome : option string)
| PipInstall (package : string) (outcome : option string)
| CoInitialize
| DispatchEx (prog_id : string)
| SetVisible (visible : bool)
| DocumentsOpen (docx_path : string) (outcome : option string)
| ExportAsFixedFormat (docx_path OutputFileName : string)
    (ExportFormat : Z) (OpenAfterExport : bool)
    (OptimizeFor CreateBookmarks : Z) (outcome : option string)
| DocClose (docx_path : string) (SaveChanges : bool) (outcome : option string)
| Quit
| CoUninitialize.

Inductive exn :=
| ImportError (msg : string)
| Exception (msg : string)      (* any other instance of [Exception] *)
| SystemExit (code : Z).

(** [str(e)] *)
Definition str (e : exn) : string :=
  match e with
  | ImportError msg => msg
  | Exception msg => msg
  | SystemExit code => Str.of_Z code
  end.

(** [isinstance(e, Exception)] and [isinstance(e, ImportError)] *)
Definition is_Exception (e : exn) : bool :=
  match e with SystemExit _ => false | _ => true end.
Definition is_ImportError (e : exn) : bool :=
  match e with ImportError _ => true | _ => false end.

Inductive result (A : Type) :=
| Ok (a : A)
| Raise (e : exn).
Arguments Ok {A} a.
Arguments Raise {A} e.

(** A computation: the events performed and how it ended. *)
Definition prog (A : Type) : Type := list event * result A.

Definition trace {A} (m : prog A) : list event := fst m.
Definition outcome {A} (m : prog A) : result A := snd m.

Definition ret {A} (a : A) : prog A := ([], Ok a).

Definition bind {A B} (m : prog A) (k : A -> prog B) : prog B :=
  match snd m with
  | Ok a => (fst m ++ fst (k a), snd (k a))%list
  | Raise e => (fst m, Raise e)
  end.

Definition emit (ev : event) : prog unit := ([ev], Ok tt).

Definition raise {A} (e : exn) : prog A := ([], Raise e).

(** A call that may raise: the event is recorded either way. *)
Definition call (ev : option string -> event) (mk : string -> exn)
  (answer : option string) : prog unit :=
  ([ev answer], match answer with None => Ok tt | Some msg => Raise (mk msg) end).

(** [try: body / except C as e: handler(e)] *)
Definition try_except {A} (body : prog A) (catches : exn -> bool)
  (handler : exn -> prog A) : prog A :=
  match snd body with
  | Ok _ => body
  | Raise e =>
      if catches e
      then (fst body ++ fst (handler e), snd (handler e))%list
      else body
  end.

(** [try: body / finally: final]; an exception of [final] replaces the
    outcome of [body]. *)
Definition try_finally {A} (body : prog A) (final : prog unit) : prog A :=
  ((fst body ++ fst final)%list,
   match snd final with
   | Ok _ => snd body
   | Raise e => Raise e
   end).

(** [for index, x in enumerate(xs, start=index): body(index, x)] *)
Fixpoint for_enumerate {X} (index : Z) (xs : list X)
  (body : Z -> X -> prog unit) : prog unit :=
  match xs with
  | [] => ret tt
  | x :: xs' =>
      bind (body index x) (fun _ => for_enumerate (index + 1) xs' body)
  end.

(** [for x in xs: body(x)] *)
Fixpoint for_each {X} (xs : list X) (body : X -> prog unit) : prog unit :=
  match xs with
  | [] => ret tt
  | x :: xs' => bind (body x) (fun _ => for_each xs' body)
  end.

Definition print (line : string) : prog unit := emit (Print line).
Definition sys_exit {A} (code : Z) : prog A := raise (SystemExit code).

(** The status the interpreter exits with: 0 when the script runs to its
    end, the argument of [sys.exit], 1 after a traceback. *)
Definition exit_status {A} (m : prog A) : Z :=
  match snd m with
  | Ok _ => 0
  | Raise (SystemExit code) => code
  | Raise _ => 1
  end.

End Py.

Import Py.

Notation "m ;; k" := (Py.bind m (fun _ => k))
  (at level 61, right associativity).

(* ================================================================== *)
(** * The outside world *)

Record world := {
  (** [os.path]: [posixpath] or [ntpath] *)
  flavour : OsPath.flavour;
  (** [os.path.abspath(sys.argv[0])] *)
  script_path : string;
  (** the names [os.scandir] lists in the folder of the script *)
  folder : list string;
  (** [sys.executable] *)
  executable : string;
  (** [datetime.now().strftime("%Y-%m-%d %H:%M:%S")] *)
  now_str : string;
  (** [import name] before the installation attempt *)
  import_module : string -> option string;
  (** [pip install pywin32] through [subprocess.check_call] *)
  pip_install : option string;
  (** [importlib.import_module(name)] after the installation *)
  import_module_again : string -> option string;
  (** [word.Documents.Open(docx_path)] *)
  Documents_Open : string -> option string;
  (** [doc.ExportAsFixedFormat(OutputFileName=pdf_path, ...)] on the
      document opened from [docx_path] *)
  Export_As_Fixed_Format : string -> string -> option string;
  (** [doc.Close(SaveChanges=False)] on the document opened from
      [docx_path] *)
  Doc_Close : string -> option string
}.

(** How the calls answer that the script makes outside any handler:
    [None] when the call returns, [Some msg] when it raises an exception of
    text [msg]. *)
Record host := {
  (** [pythoncom.CoInitialize()], line 90 *)
  CoInitialize_answer : option string;
  (** [win32com_client.DispatchEx("Word.Application")], line 91 *)
  DispatchEx_answer : option string;
  (** [word.Visible = False], line 92 *)
  Visible_answer : option string;
  (** [word.Quit()], line 128 *)
  Quit_answer : option string;
  (** [pythoncom.CoUninitialize()], line 129 *)
  CoUninitialize_answer : option string;
  (** [input(...)], lines 34, 46, 72 and 138 *)
  input_answer : option string
}.

(* ================================================================== *)
(** * The script: the jobs and the listings *)

Section Script.

Variable w : world.

Let fl := flavour w.

(** [os.path.splitext(docx_path)[0] + ".pdf"], lines 97 and 133. *)
Definition pdf_path_of (docx_path : string) : string :=
  fst (OsPath.splitext fl docx_path) ++ ".pdf".

(** The body of the [try] of one job, lines 97-119. *)
Definition job_body (total index : Z) (docx_path : string) : prog unit :=
  let pdf_path := pdf_path_of docx_path in
  print (Str.nl ++ "[" ++ Str.of_Z index ++ "/" ++ Str.of_Z total
           ++ "] Converting file:") ;;
  print ("  DOCX: " ++ OsPath.basename fl docx_path) ;;
  print ("  PDF : " ++ OsPath.basename fl pdf_path) ;;
  call (DocumentsOpen docx_path) Exception (Documents_Open w docx_path) ;;
  (* 17 = wdExportFormatPDF, 0 = wdExportOptimizeForPrint,
     1 = wdExportCreateHeadingBookmarks *)
  call (ExportAsFixedFormat docx_path pdf_path 17 false 0 1) Exception
       (Export_As_Fixed_Format w docx_path pdf_path) ;;
  call (DocClose docx_path false) Exception (Doc_Close w docx_path) ;;
  print ("  Status: OK   |   Progress: " ++ Str.of_Z (percent index total) ++ "%").

(** The handler of one job, lines 121-125. *)
Definition job_handler (total index : Z) (docx_path : string) (e : exn)
  : prog unit :=
  print ("  Status: ERROR (see details below) | Progress: "
           ++ Str.of_Z (percent index total) ++ "%") ;;
  print ("  Error while processing " ++ OsPath.basename fl docx_path ++ ":") ;;
  print ("    " ++ str e).

(** One turn of the loop, lines 96-125. *)
Definition convert_job (total index : Z) (docx_path : string) : prog unit :=
  try_except (job_body total index docx_path) is_Exception
             (job_handler total index docx_path).

(** The loop of lines 95-125. *)
Definition convert_jobs (total : Z) (start : Z) (docx_files : list string)
  : prog unit :=
  for_enumerate start docx_files (convert_job total).

(** The list of files printed before the conversion, lines 77-83. *)
Definition announce (docx_files : list string) : prog unit :=
  let total := Z.of_nat (List.length docx_files) in
  print (Str.nl ++ "Files to be converted:") ;;
  (if total =? 1
   then
     print ("  1 file found: "
              ++ OsPath.basename fl (List.hd EmptyString docx_files))
   else
     for_each docx_files
       (fun f => print ("  - " ++ OsPath.basename fl f)) ;;
     print (Str.nl ++ "Total files: " ++ Str.of_Z total)).

(** [print_intro(working_dir)], lines 141-154. *)
Definition print_intro (working_dir : string) : prog unit :=
  print "==========================================================" ;;
  print " MK DOCX to PDF Converter v2.1" ;;
  print "----------------------------------------------------------" ;;
  print " This tool converts all DOCX files in this folder to PDF" ;;
  print " using Microsoft Word (Export as PDF, 1:1 formatting)." ;;
  print "" ;;
  print (" Current date and time: " ++ now_str w) ;;
  print (" Working folder: " ++ working_dir) ;;
  print ("==========================================================" ++ Str.nl).

End Script.

(* ================================================================== *)
(** * The script: the whole run *)

(** The functions that make calls the script leaves unguarded.  They are
    written once, for any [host]; the functions of the same names after the
    module are the runs on a host whose unguarded calls return. *)
Module Run.

Section Unguarded.

Variable h : host.
Variable w : world.

Let fl := flavour w.

(** [input(prompt)]; it may raise. *)
Definition input (prompt : string) : prog unit :=
  call (fun _ => Input prompt) Exception (input_answer h).

(** [ensure_pywin32()], lines 9-47. *)
Definition ensure_pywin32 : prog unit :=
  try_except
    (call (Import "pythoncom") ImportError (import_module w "pythoncom") ;;
     call (Import "win32com.client") ImportError
          (import_module w "win32com.client"))
    is_ImportError
    (fun _ =>
       print "Required modules 'pythoncom' / 'win32com.client' are missing." ;;
       print ("Attempting to install 'pywin32' via pip..." ++ Str.nl) ;;
       try_except
         (call (PipInstall "pywin32") Exception (pip_install w))
         is_Exception
         (fun e =>
            print "Failed to install 'pywin32' automatically." ;;
            print ("Error details: " ++ str e) ;;
            print (Str.nl ++ "Please run manually in your terminal / PowerShell:") ;;
            print ("  " ++ OsPath.basename fl (executable w)
                     ++ " -m pip install pywin32") ;;
            input (Str.nl ++ "Press Enter to exit...") ;;
            sys_exit 1) ;;
       print (Str.nl ++ "Successfully installed 'pywin32'. Trying to import it..."
                ++ Str.nl) ;;
       try_except
         (call (Import "pythoncom") ImportError
               (import_module_again w "pythoncom") ;;
          call (Import "win32com.client") ImportError
               (import_module_again w "win32com.client"))
         is_Exception
         (fun e =>
            print "Installation finished, but 'pywin32' still cannot be imported." ;;
            print ("Error details: " ++ str e) ;;
            input (Str.nl ++ "Press Enter to exit...") ;;
            sys_exit 1)).

(** The closing report, lines 131-138. *)
Definition summary (docx_files : list string) : prog unit :=
  let total := Z.of_nat (List.length docx_files) in
  print (Str.nl ++ "All conversions finished.") ;;
  (if total =? 1
   then
     let out_path :=
       fst (OsPath.splitext fl (List.hd EmptyString docx_files)) ++ ".pdf" in
     print ("Created PDF file: " ++ OsPath.basename fl out_path)
   else print "PDF files were created next to each original DOCX file.") ;;
  input (Str.nl ++ "Press Enter to exit...").

(** COM and Word around the loop, lines 89-129: initialise, start Word
    and hide it, all three before the [try]; run [body] under [try]; quit
    and uninitialise under [finally].  Each of the five calls may raise. *)
Definition word_session (body : prog unit) : prog unit :=
  call (fun _ => CoInitialize) Exception (CoInitialize_answer h) ;;
  call (fun _ => DispatchEx "Word.Application") Exception (DispatchEx_answer h) ;;
  call (fun _ => SetVisible false) Exception (Visible_answer h) ;;
  try_finally body
    (call (fun _ => Quit) Exception (Quit_answer h) ;;
     call (fun _ => CoUninitialize) Exception (CoUninitialize_answer h)).

(** [convert_all_docx_in_folder(base_dir)], lines 62-138. *)
Definition convert_all_docx_in_folder (base_dir : string) : prog unit :=
  let docx_files := list_docx_files fl (folder w) base_dir in
  match docx_files with
  | [] =>
      print "No .docx files found in this folder:" ;;
      print ("  " ++ base_dir) ;;
      input (Str.nl ++ "Press Enter to exit...") ;;
      ret tt
  | _ :: _ =>
      let total := Z.of_nat (List.length docx_files) in
      announce w docx_files ;;
      ensure_pywin32 ;;
      print (Str.nl ++ "Starting conversion using Microsoft Word...") ;;
      word_session (convert_jobs w total 1 docx_files) ;;
      summary docx_files
  end.

(** The [__main__] block, lines 157-160. *)
Definition main : prog unit :=
  let working_dir := fst (OsPath.split fl (script_path w)) in
  print_intro w working_dir ;;
  convert_all_docx_in_folder working_dir.

End Unguarded.

End Run.

(** A host whose unguarded calls return. *)
Definition host_returns : host :=
  {| CoInitialize_answer := None;
     DispatchEx_answer := None;
     Visible_answer := None;
     Quit_answer := None;
     CoUninitialize_answer := None;
     input_answer := None |}.

(** [ensure_pywin32()] on a host whose unguarded calls return. *)
Definition ensure_pywin32 (w : world) : prog unit :=
  Run.ensure_pywin32 host_returns w.

(** The closing report on such a host. *)
Definition summary (w : world) (docx_files : list string) : prog unit :=
  Run.summary host_returns w docx_files.

(** The session on such a host: the five events are performed and the
    session ends as [body] ends. *)
Definition word_session (body : prog unit) : prog unit :=
  Run.word_session host_returns body.

(** [convert_all_docx_in_folder(base_dir)] on such a host. *)
Definition convert_all_docx_in_folder (w : world) (base_dir : string)
  : prog unit :=
  Run.convert_all_docx_in_folder host_returns w base_dir.

(** The [__main__] block on such a host. *)
Definition main (w : world) : prog unit := Run.main host_returns w.

(* ================================================================== *)
(** * Reading a run *)

(** The text the exception of a job carries, if the job raises: the first of
    open, export and close that fails decides. *)
Definition job_failure (w : world) (docx_path : string) : option string :=
  match Documents_Open w docx_path with
  | Some msg => Some msg
  | None =>
      match Export_As_Fixed_Format w docx_path (pdf_path_of w docx_path) with
      | Some msg => Some msg
      | None => Doc_Close w docx_path
      end
  end.

(** The three lines every job starts with. *)
Definition job_header (w : world) (total index : Z) (docx_path : string)
  : list event :=
  [ Print (Str.nl ++ "[" ++ Str.of_Z index ++ "/" ++ Str.of_Z total
             ++ "] Converting file:");
    Print ("  DOCX: " ++ OsPath.basename (flavour w) docx_path);
    Print ("  PDF : " ++ OsPath.basename (flavour w) (pdf_path_of w docx_path)) ].

(** The three lines a failed job ends with. *)
Definition error_report (w : world) (total index : Z) (docx_path msg : string)
  : list event :=
  [ Print ("  Status: ERROR (see details below) | Progress: "
             ++ Str.of_Z (percent index total) ++ "%");
    Print ("  Error while processing "
             ++ OsPath.basename (flavour w) docx_path ++ ":");
    Print ("    " ++ msg) ].

(** The line a successful job ends with. *)
Definition ok_report (total index : Z) : list event :=
  [ Print ("  Status: OK   |   Progress: "
             ++ Str.of_Z (percent index total) ++ "%") ].

(** The calls one job makes to Word. *)
Definition job_calls (w : world) (docx_path : string) : list event :=
  let pdf_path := pdf_path_of w docx_path in
  let export := Export_As_Fixed_Format w docx_path pdf_path in
  DocumentsOpen docx_path (Documents_Open w docx_path) ::
  match Documents_Open w docx_path with
  | Some _ => []
  | None =>
      ExportAsFixedFormat docx_path pdf_path 17 false 0 1 export ::
      match export with
      | Some _ => []
      | None => [DocClose docx_path false (Doc_Close w docx_path)]
      end
  end.

Definition count (P : event -> bool) (tr : list event) : nat :=
  List.length (List.filter P tr).

Definition is_CoInitialize (ev : event) : bool :=
  match ev with CoInitialize => true | _ => false end.
Definition is_DispatchEx (ev : event) : bool :=
  match ev with DispatchEx _ => true | _ => false end.
Definition is_Quit (ev : event) : bool :=
  match ev with Quit => true | _ => false end.
Definition is_CoUninitialize (ev : event) : bool :=
  match ev with CoUninitialize => true | _ => false end.

(** The events that touch COM or Word. *)
Definition is_engine_event (ev : event) : bool :=
  match ev with
  | CoInitialize | DispatchEx _ | SetVisible _ | DocumentsOpen _ _
  | ExportAsFixedFormat _ _ _ _ _ _ _ | DocClose _ _ _ | Quit
  | CoUninitialize => true
  | _ => false
  end.

(** The events of the run-level life cycle of the engine. *)
Definition is_lifecycle_event (ev : event) : bool :=
  match ev with
  | CoInitialize | DispatchEx _ | SetVisible _ | Quit | CoUninitialize => true
  | _ => false
  end.

Definition is_DocClose_of (docx_path : string) (ev : event) : bool :=
  match ev with
  | DocClose d _ _ => String.eqb d docx_path
  | _ => false
  end.

(** Both imports of a pair succeed. *)
Definition imports_ok (answer : string -> option string) : bool :=
  match answer "pythoncom", answer "win32com.client" with
  | None, None => true
  | _, _ => false
  end.

(** The integration layer can be obtained: it imports at once, or the
    installation succeeds and it imports afterwards. *)
Definition engine_obtainable (w : world) : bool :=
  imports_ok (import_module w) ||
  (match pip_install w with None => true | Some _ => false end &&
   imports_ok (import_module_again w)).

(** The folder the script works on and the files it discovers there. *)
Definition working_dir (w : world) : string :=
  fst (OsPath.split (flavour w) (script_path w)).
Definition discovered (w : world) : list string :=
  list_docx_files (flavour w) (folder w) (working_dir w).

(* ================================================================== *)
(** * Reading a folder *)

(** A name a folder can hold: not empty and free of separators. *)
Definition valid_name (fl : OsPath.flavour) (name : string) : bool :=
  negb (String.eqb name EmptyString) &&
  Str.forallb (fun c => negb (OsPath.is_sep fl c)) name.

(** The name carries the source extension, under the case rule of the
    platform. *)
Definition has_docx_extension (fl : OsPath.flavour) (name : string) : bool :=
  Str.endswith (OsPath.normcase fl name) ".docx".

(** The name begins with the lock-file marker of Word. *)
Definition is_lock_file (name : string) : bool := Str.startswith name "~$".

(** The name begins with a dot. *)
Definition is_dot_file (name : string) : bool := Str.startswith name ".".

(** The directory part [glob.glob] joins the names to: the head of the
    pattern.  It is [base_dir] without its trailing separators. *)
Definition glob_dirname (fl : OsPath.flavour) (base_dir : string) : string :=
  fst (OsPath.split fl (OsPath.join fl base_dir "*.docx")).

(** What [os.path.join(path, name)] puts in front of a relative [name]. *)
Definition dir_prefix (fl : OsPath.flavour) (path : string) : string :=
  if String.eqb path EmptyString || OsPath.last_is_sep fl path
  then path
  else path ++ String (OsPath.sep fl) EmptyString.

(** The head [os.path.split] makes of what precedes the last component. *)
Definition head_of (fl : OsPath.flavour) (pre : string) : string :=
  if negb (String.eqb pre EmptyString) &&
     negb (Str.forallb (OsPath.is_sep fl) pre)
  then Str.rstrip (OsPath.is_sep fl) pre
  else pre.

(** A prefix that is empty or ends with a separator. *)
Definition dirlike (fl : OsPath.flavour) (pre : string) : Prop :=
  pre = EmptyString \/
  exists pre' c, pre = pre' ++ String c EmptyString /\ OsPath.is_sep fl c = true.

(** An ASCII letter. *)
Definition is_letter (c : ascii) : bool :=
  let n := nat_of_ascii c in
  ((65 <=? n)%nat && (n <=? 90)%nat) || ((97 <=? n)%nat && (n <=? 122)%nat).

(** A folder path that [os.path.dirname] gives back from the path of a file
    in it, and on which [OsPath.split] and [OsPath.join] are Python's: it is
    not empty and does not end with a separator; on Windows it begins with a
    drive letter, a colon and a separator, so that it is no root of a
    drive and no UNC share. *)
Definition folder_path (fl : OsPath.flavour) (d : string) : bool :=
  negb (String.eqb d EmptyString) && negb (OsPath.last_is_sep fl d) &&
  match fl with
  | OsPath.posixpath => true
  | OsPath.ntpath =>
      match d with
      | String c (String ":" (String s _)) => is_letter c && OsPath.is_sep fl s
      | _ => false
      end
  end.

(** A name a folder can hold that [os.path.join] treats as relative: on
    Windows it holds no colon, which would make its beginning a drive. *)
Definition plain_name (fl : OsPath.flavour) (name : string) : bool :=
  valid_name fl name &&
  match fl with
  | OsPath.posixpath => true
  | OsPath.ntpath => Str.forallb (fun c => negb (Ascii.eqb c ":")) name
  end.

(** The script's percentage is the floor of [100 * index / total], for one
    pair and for all pairs with [1 <= index <= total <= n]. *)
Definition percent_is_floor (index total : Z) : bool :=
  percent index total =? 100 * index / total.
Definition percent_is_floor_upto (n : nat) : bool :=
  List.forallb
    (fun total =>
       List.forallb
         (fun index => percent_is_floor (Z.of_nat index) (Z.of_nat total))
         (List.seq 1 total))
    (List.seq 1 n).

(** The number of jobs of a list that end well, and that fail. *)
Definition succeeded (w : world) (docx_files : list string) : nat :=
  List.length
    (List.filter
       (fun p => match job_failure w p with None => true | Some _ => false end)
       docx_files).
Definition failed (w : world) (docx_files : list string) : nat :=
  List.length
    (List.filter
       (fun p => match job_failure w p with None => false | Some _ => true end)
       docx_files).

(* ================================================================== *)
(** * Sample worlds *)

(** A Windows machine with pywin32 installed and a folder of three
    documents, a lock file, a dot file and a text file; how Word answers to
    export and close is left open. *)
Definition sample_world (export : string -> string -> option string)
  (close : string -> option string) : world :=
  {| flavour := OsPath.ntpath;
     script_path := "C:\Users\u\docs\convert.py";
     folder := ["a.docx"; "b.docx"; "~$b.docx"; "c.docx"; ".notes.docx";
                "notes.txt"];
     executable := "C:\Python312\python.exe";
     now_str := "2025-01-01 10:00:00";
     import_module := fun _ => None;
     pip_install := None;
     import_module_again := fun _ => None;
     Documents_Open := fun _ => None;
     Export_As_Fixed_Format := export;
     Doc_Close := close |}.

(** Every conversion succeeds. *)
Definition world_all_fine : world :=
  sample_world (fun _ _ => None) (fun _ => None).

(** The export of [b.docx] fails. *)
Definition world_b_locked : world :=
  sample_world
    (fun docx _ =>
       if String.eqb docx "C:\Users\u\docs\b.docx"
       then Some "The file is locked."
       else None)
    (fun _ => None).

(** The export of [b.docx] succeeds and its close fails. *)
Definition world_b_close_fails : world :=
  sample_world
    (fun _ _ => None)
    (fun docx =>
       if String.eqb docx "C:\Users\u\docs\b.docx"
       then Some "The RPC server is unavailable."
       else None).

(* ================================================================== *)
(** * Reading a trace *)

Definition is_Print (ev : event) : bool :=
  match ev with Print _ => true | _ => false end.
Definition is_Input (ev : event) : bool :=
  match ev with Input _ => true | _ => false end.
Definition is_PipInstall (ev : event) : bool :=
  match ev with PipInstall _ _ => true | _ => false end.

(** The calls on documents. *)
Definition is_document_event (ev : event) : bool :=
  match ev with
  | DocumentsOpen _ _ | ExportAsFixedFormat _ _ _ _ _ _ _ | DocClose _ _ _ => true
  | _ => false
  end.

(** The documents a trace opens, exports and closes, in order, whether the
    call returned or raised. *)
Definition opened (tr : list event) : list string :=
  List.flat_map
    (fun ev => match ev with DocumentsOpen d _ => [d] | _ => [] end) tr.
Definition export_attempts (tr : list event) : list string :=
  List.flat_map
    (fun ev =>
       match ev with ExportAsFixedFormat d _ _ _ _ _ _ => [d] | _ => [] end) tr.
Definition close_attempts (tr : list event) : list string :=
  List.flat_map
    (fun ev => match ev with DocClose d _ _ => [d] | _ => [] end) tr.

(** The output files a trace produces: the targets of the exports that
    returned. *)
Definition produced (tr : list event) : list string :=
  List.flat_map
    (fun ev =>
       match ev with
       | ExportAsFixedFormat _ out _ _ _ _ None => [out]
       | _ => []
       end) tr.

(** The document calls of a trace. *)
Definition document_calls (tr : list event) : list event :=
  List.flat_map (fun ev => if is_document_event ev then [ev] else []) tr.

(** The status lines of the jobs. *)
Definition is_ok_line (ev : event) : bool :=
  match ev with Print s => Str.startswith s "  Status: OK" | _ => false end.
Definition is_error_line (ev : event) : bool :=
  match ev with Print s => Str.startswith s "  Status: ERROR" | _ => false end.

(** Word opens the file; Word opens and exports it. *)
Definition opens_ok (w : world) (docx_path : string) : bool :=
  match Documents_Open w docx_path with None => true | Some _ => false end.
Definition exports_ok (w : world) (docx_path : string) : bool :=
  opens_ok w docx_path &&
  match Export_As_Fixed_Format w docx_path (pdf_path_of w docx_path) with
  | None => true
  | Some _ => false
  end.

(** The names of a folder that discovery accepts. *)
Definition accepted (fl : OsPath.flavour) (name : string) : bool :=
  has_docx_extension fl name && negb (is_lock_file name) &&
  negb (is_dot_file name).

(** The text shown after [Error details:] when the integration layer cannot
    be obtained: that of the installation if it fails, else that of the
    first import that fails afterwards. *)
Definition fatal_message (w : world) : option string :=
  match pip_install w with
  | Some msg => Some msg
  | None =>
      match import_module_again w "pythoncom" with
      | Some msg => Some msg
      | None => import_module_again w "win32com.client"
      end
  end.

(** The percentage of job [index] of [total] lies between 0 and 100, is not
    below that of the job before, is 100 for the last job, and is the floor
    of [100 * index / total] or, only when that quotient is whole, one
    less. *)
Definition percent_sound (index total : Z) : bool :=
  let p := percent index total in
  let f := 100 * index / total in
  (0 <=? p) && (p <=? 100) && (percent (index - 1) total <=? p) &&
  (if index =? total then p =? 100 else true) &&
  (if (100 * index) mod total =? 0 then (p =? f) || (p =? f - 1) else p =? f).
Definition percent_sound_upto (n : nat) : bool :=
  List.forallb
    (fun total =>
       List.forallb
         (fun index => percent_sound (Z.of_nat index) (Z.of_nat total))
         (List.seq 1 total))
    (List.seq 1 n).

(* ================================================================== *)
(** * More sample worlds *)

(** A folder with one document whose export fails. *)
Definition world_one_locked : world :=
  {| flavour := OsPath.ntpath;
     script_path := "C:\Users\u\one\convert.py";
     folder := ["report.docx"; "convert.py"];
     executable := "C:\Python312\python.exe";
     now_str := "2025-01-01 10:00:00";
     import_module := fun _ => None;
     pip_install := None;
     import_module_again := fun _ => None;
     Documents_Open := fun _ => None;
     Export_As_Fixed_Format := fun _ _ => Some "The file is locked.";
     Doc_Close := fun _ => None |}.

(** A machine without pywin32 where the installation fails. *)
Definition world_no_pywin32 : world :=
  {| flavour := OsPath.ntpath;
     script_path := "C:\Users\u\docs\convert.py";
     folder := ["a.docx"; "b.docx"];
     executable := "C:\Python312\python.exe";
     now_str := "2025-01-01 10:00:00";
     import_module := fun _ => Some "No module named 'pythoncom'";
     pip_install := Some "Command returned non-zero exit status 1.";
     import_module_again := fun _ => Some "No module named 'pythoncom'";
     Documents_Open := fun _ => None;
     Export_As_Fixed_Format := fun _ _ => None;
     Doc_Close := fun _ => None |}.

(** A folder whose two documents differ in the case of the extension
    only. *)
Definition world_two_cases : world :=
  {| flavour := OsPath.ntpath;
     script_path := "C:\Users\u\mix\convert.py";
     folder := ["a.docx"; "a.DOCX"];
     executable := "C:\Python312\python.exe";
     now_str := "2025-01-01 10:00:00";
     import_module := fun _ => None;
     pip_install := None;
     import_module_again := fun _ => None;
     Documents_Open := fun _ => None;
     Export_As_Fixed_Format := fun _ _ => None;
     Doc_Close := fun _ => None |}.

(* ================================================================== *)
(** * Hosts *)

(** The three calls before the [try] return: COM is initialised, Word is
    started and hidden. *)
Definition session_starts (h : host) : bool :=
  match CoInitialize_answer h, DispatchEx_answer h, Visible_answer h with
  | None, None, None => true
  | _, _, _ => false
  end.

(** The two calls of the [finally] return. *)
Definition session_ends (h : host) : bool :=
  match Quit_answer h, CoUninitialize_answer h with
  | None, None => true
  | _, _ => false
  end.

(** All five unguarded COM calls return. *)
Definition com_returns (h : host) : bool := session_starts h && session_ends h.

(** [input] returns. *)
Definition input_returns (h : host) : bool :=
  match input_answer h with None => true | Some _ => false end.

(** The text of the first unguarded COM call that raises, in the order of
    the calls: [CoInitialize], [DispatchEx], the write to [Visible], [Quit],
    [CoUninitialize]. *)
Definition session_failure (h : host) : option string :=
  match CoInitialize_answer h with
  | Some msg => Some msg
  | None =>
      match DispatchEx_answer h with
      | Some msg => Some msg
      | None =>
          match Visible_answer h with
          | Some msg => Some msg
          | None =>
              match Quit_answer h with
              | Some msg => Some msg
              | None => CoUninitialize_answer h
              end
          end
      end
  end.

(** The events of the session around a body that performs [body]. *)
Definition session_events (h : host) (body : list event) : list event :=
  CoInitialize ::
  match CoInitialize_answer h with
  | Some _ => []
  | None =>
      DispatchEx "Word.Application" ::
      match DispatchEx_answer h with
      | Some _ => []
      | None =>
          SetVisible false ::
          match Visible_answer h with
          | Some _ => []
          | None =>
              (body ++
               Quit ::
               match Quit_answer h with
               | Some _ => []
               | None => [CoUninitialize]
               end)%list
          end
      end
  end.

(** Word is not installed: [DispatchEx] raises. *)
Definition host_no_word : host :=
  {| CoInitialize_answer := None;
     DispatchEx_answer := Some "Invalid class string";
     Visible_answer := None;
     Quit_answer := None;
     CoUninitialize_answer := None;
     input_answer := None |}.

(** Word starts and rejects the write to [Visible]. *)
Definition host_visible_fails : host :=
  {| CoInitialize_answer := None;
     DispatchEx_answer := None;
     Visible_answer := Some "Call was rejected by callee.";
     Quit_answer := None;
     CoUninitialize_answer := None;
     input_answer := None |}.

(** Word is gone when the loop ends: [Quit] raises. *)
Definition host_quit_fails : host :=
  {| CoInitialize_answer := None;
     DispatchEx_answer := None;
     Visible_answer := None;
     Quit_answer := Some "The RPC server is unavailable.";
     CoUninitialize_answer := None;
     input_answer := None |}.

(** The script runs without a console input: [input] raises [EOFError]. *)
Definition host_no_stdin : host :=
  {| CoInitialize_answer := None;
     DispatchEx_answer := None;
     Visible_answer := None;
     Quit_answer := None;
     CoUninitialize_answer := None;
     input_answer := Some "EOF when reading a line" |}.

(* ================================================================== *)
(** * The model at work *)

Example discovery_posix :
  list_docx_files OsPath.posixpath
    ["a.docx"; "b.docx"; "~$b.docx"; ".notes.docx"; "c.txt"; "D.DOCX"] "/home/u/docs"
  = ["/home/u/docs/a.docx"; "/home/u/docs/b.docx"].
Proof. reflexivity. Qed.

Example discovery_nt :
  list_docx_files OsPath.ntpath
    ["a.docx"; "b.docx"; "~$b.docx"; ".notes.docx"; "c.txt"; "D.DOCX"] "C:\Users\u"
  = ["C:\Users\u\a.docx"; "C:\Users\u\b.docx"; "C:\Users\u\D.DOCX"].
Proof. reflexivity. Qed.

Example splitext_examples :
  OsPath.splitext OsPath.posixpath "/x.y/a.docx" = ("/x.y/a", ".docx") /\
  OsPath.splitext OsPath.posixpath "/x.y/.docx" = ("/x.y/.docx", "") /\
  OsPath.splitext OsPath.posixpath "/x.y/README" = ("/x.y/README", "") /\
  OsPath.splitext OsPath.ntpath "C:\d\..a.b.DOCX" = ("C:\d\..a.b", ".DOCX").
Proof. repeat split; reflexivity. Qed.

Example percent_examples :
  percent 1 3 = 33 /\ percent 2 3 = 66 /\ percent 3 3 = 100 /\
  percent 7 25 = 28 /\ percent 1 1 = 100.
Proof. repeat split. Qed.

(** The run of the third scenario of the specification: three documents,
    the export of the second fails. *)
Example run_b_locked :
  main world_b_locked =
  ([ Print "==========================================================";
     Print " MK DOCX to PDF Converter v2.1";
     Print "----------------------------------------------------------";
     Print " This tool converts all DOCX files in this folder to PDF";
     Print " using Microsoft Word (Export as PDF, 1:1 formatting).";
     Print "";
     Print " Current date and time: 2025-01-01 10:00:00";
     Print " Working folder: C:\Users\u\docs";
     Print ("==========================================================" ++ Str.nl);
     Print (Str.nl ++ "Files to be converted:");
     Print "  - a.docx";
     Print "  - b.docx";
     Print "  - c.docx";
     Print (Str.nl ++ "Total files: 3");
     Import "pythoncom" None;
     Import "win32com.client" None;
     Print (Str.nl ++ "Starting conversion using Microsoft Word...");
     CoInitialize;
     DispatchEx "Word.Application";
     SetVisible false;
     Print (Str.nl ++ "[1/3] Converting file:");
     Print "  DOCX: a.docx";
     Print "  PDF : a.pdf";
     DocumentsOpen "C:\Users\u\docs\a.docx" None;
     ExportAsFixedFormat "C:\Users\u\docs\a.docx" "C:\Users\u\docs\a.pdf"
       17 false 0 1 None;
     DocClose "C:\Users\u\docs\a.docx" false None;
     Print "  Status: OK   |   Progress: 33%";
     Print (Str.nl ++ "[2/3] Converting file:");
     Print "  DOCX: b.docx";
     Print "  PDF : b.pdf";
     DocumentsOpen "C:\Users\u\docs\b.docx" None;
     ExportAsFixedFormat "C:\Users\u\docs\b.docx" "C:\Users\u\docs\b.pdf"
       17 false 0 1 (Some "The file is locked.");
     Print "  Status: ERROR (see details below) | Progress: 66%";
     Print "  Error while processing b.docx:";
     Print "    The file is locked.";
     Print (Str.nl ++ "[3/3] Converting file:");
     Print "  DOCX: c.docx";
     Print "  PDF : c.pdf";
     DocumentsOpen "C:\Users\u\docs\c.docx" None;
     ExportAsFixedFormat "C:\Users\u\docs\c.docx" "C:\Users\u\docs\c.pdf"
       17 false 0 1 None;
     DocClose "C:\Users\u\docs\c.docx" false None;
     Print "  Status: OK   |   Progress: 100%";
     Quit;
     CoUninitialize;
     Print (Str.nl ++ "All conversions finished.");
     Print "PDF files were created next to each original DOCX file.";
     Input (Str.nl ++ "Press Enter to exit...") ], Ok tt).
Proof. vm_compute. reflexivity. Qed.

(* ================================================================== *)
(** * Lemmas on runs *)

Section RunLemmas.

Lemma bind_ok {A B} (m : prog A) (k : A -> prog B) (a : A) :
  outcome m = Ok a ->
  bind m k = ((trace m ++ trace (k a))%list, outcome (k a)).
Proof.
  unfold bind, outcome, trace. intros ->. reflexivity.
Qed.

Lemma bind_raise {A B} (m : prog A) (k : A -> prog B) (e : exn) :
  outcome m = Raise e -> bind m k = (trace m, Raise e).
Proof.
  unfold bind, outcome, trace. intros ->. reflexivity.
Qed.

Lemma trace_pair {A} (tr : list event) (r : result A) : trace (tr, r) = tr.
Proof. reflexivity. Qed.

Lemma outcome_pair {A} (tr : list event) (r : result A) : outcome (tr, r) = r.
Proof. reflexivity. Qed.

(** The session runs its body between the three opening events and the two
    closing ones, and ends as the body ends, whether the body returns or
    raises. *)
Lemma word_session_run (body : prog unit) :
  word_session body =
  (([CoInitialize; DispatchEx "Word.Application"; SetVisible false] ++
    trace body ++ [Quit; CoUninitialize])%list, outcome body).
Proof.
  destruct body as [tr [[]|e]]; reflexivity.
Qed.

Lemma count_app P (a b : list event) :
  count P (a ++ b)%list = (count P a + count P b)%nat.
Proof.
  unfold count. rewrite List.filter_app, List.length_app. reflexivity.
Qed.

Lemma count_none P Q (tr : list event) :
  (forall ev, Q ev = true -> P ev = false) ->
  List.forallb Q tr = true -> count P tr = 0%nat.
Proof.
  intros HQ. unfold count. induction tr as [|ev tr IH]; simpl; intros H.
  - reflexivity.
  - apply andb_true_iff in H as [Hev Htr].
    rewrite (HQ ev Hev). auto.
Qed.

Variable w : world.

(** What one turn of the loop does: header, calls, report; it never
    raises. *)
Lemma convert_job_run (total index : Z) (docx_path : string) :
  convert_job w total index docx_path =
  ((job_header w total index docx_path ++ job_calls w docx_path ++
    match job_failure w docx_path with
    | Some msg => error_report w total index docx_path msg
    | None => ok_report total index
    end)%list, Ok tt).
Proof.
  unfold convert_job, job_body, job_handler, job_failure, job_calls,
    job_header, error_report, ok_report.
  unfold try_except, bind, call, print, emit.
  destruct (Documents_Open w docx_path); [reflexivity|].
  destruct (Export_As_Fixed_Format w docx_path (pdf_path_of w docx_path));
    [reflexivity|].
  destruct (Doc_Close w docx_path); reflexivity.
Qed.

Lemma convert_job_ok (total index : Z) (docx_path : string) :
  outcome (convert_job w total index docx_path) = Ok tt.
Proof. rewrite convert_job_run. reflexivity. Qed.

Lemma convert_jobs_cons (total start : Z) (p : string) (rest : list string) :
  convert_jobs w total start (p :: rest) =
  ((trace (convert_job w total start p) ++
    trace (convert_jobs w total (start + 1) rest))%list,
   outcome (convert_jobs w total (start + 1) rest)).
Proof.
  unfold convert_jobs. simpl.
  rewrite (bind_ok _ _ tt) by apply convert_job_ok. reflexivity.
Qed.

Lemma convert_jobs_ok (total : Z) (docx_files : list string) :
  forall start, outcome (convert_jobs w total start docx_files) = Ok tt.
Proof.
  induction docx_files as [|p rest IH]; intros start.
  - reflexivity.
  - rewrite convert_jobs_cons. apply IH.
Qed.

Lemma convert_jobs_app (total : Z) (pre post : list string) :
  forall start,
    trace (convert_jobs w total start (pre ++ post)) =
    (trace (convert_jobs w total start pre) ++
     trace (convert_jobs w total (start + Z.of_nat (List.length pre)) post))%list.
Proof.
  induction pre as [|p pre IH]; intros start.
  - simpl. rewrite Z.add_0_r. reflexivity.
  - rewrite <- List.app_comm_cons. rewrite !convert_jobs_cons.
    unfold trace at 1 4. simpl fst. rewrite IH, List.app_assoc.
    replace (start + 1 + Z.of_nat (List.length pre))
      with (start + Z.of_nat (List.length (p :: pre)))
      by (simpl List.length; lia).
    reflexivity.
Qed.

End RunLemmas.

Section WholeRun.

Variable w : world.

(** The prints of a [for] loop never raise and touch nothing else. *)
Lemma for_each_print_quiet (f : string -> string) (xs : list string) :
  outcome (for_each xs (fun x => print (f x))) = Ok tt /\
  List.forallb (fun ev => negb (is_engine_event ev))
    (trace (for_each xs (fun x => print (f x)))) = true.
Proof.
  induction xs as [|x xs [IHo IHt]]; [split; reflexivity|].
  simpl for_each. rewrite (bind_ok _ _ tt) by reflexivity.
  split; [exact IHo|]. unfold trace in *. simpl. exact IHt.
Qed.

Lemma announce_quiet (docx_files : list string) :
  outcome (announce w docx_files) = Ok tt /\
  List.forallb (fun ev => negb (is_engine_event ev))
    (trace (announce w docx_files)) = true.
Proof.
  unfold announce.
  destruct (Z.of_nat (List.length docx_files) =? 1); [split; reflexivity|].
  destruct (for_each_print_quiet
              (fun f => "  - " ++ OsPath.basename (flavour w) f) docx_files)
    as [Ho Ht].
  rewrite (bind_ok _ _ tt) by reflexivity.
  rewrite (bind_ok (for_each _ _) _ tt) by exact Ho.
  split; [reflexivity|].
  unfold trace in *. cbn [fst print emit List.app].
  cbn [List.forallb is_engine_event negb andb].
  rewrite List.forallb_app, Ht. reflexivity.
Qed.

(** The dependency check ends normally exactly when the integration layer
    can be obtained, exits with status 1 otherwise, and does not touch the
    engine. *)
Lemma ensure_pywin32_run :
  outcome (ensure_pywin32 w) =
    (if engine_obtainable w then Ok tt else Raise (SystemExit 1)) /\
  List.forallb (fun ev => negb (is_engine_event ev))
    (trace (ensure_pywin32 w)) = true.
Proof.
  unfold ensure_pywin32, Run.ensure_pywin32, engine_obtainable, imports_ok.
  destruct (import_module w "pythoncom"),
    (import_module w "win32com.client"),
    (pip_install w),
    (import_module_again w "pythoncom"),
    (import_module_again w "win32com.client");
    split; vm_compute; reflexivity.
Qed.

(** The closing report: three events that depend on the list of files
    only. *)
Lemma summary_run (docx_files : list string) :
  summary w docx_files =
  ([ Print (Str.nl ++ "All conversions finished.");
     Print (if Z.of_nat (List.length docx_files) =? 1
            then "Created PDF file: "
                   ++ OsPath.basename (flavour w)
                        (pdf_path_of w (List.hd EmptyString docx_files))
            else "PDF files were created next to each original DOCX file.");
     Input (Str.nl ++ "Press Enter to exit...") ], Ok tt).
Proof.
  unfold summary, Run.summary, pdf_path_of.
  destruct (Z.of_nat (List.length docx_files) =? 1); reflexivity.
Qed.

(** The jobs perform prints and document calls only. *)
Lemma convert_jobs_no_lifecycle (total : Z) (docx_files : list string) :
  forall start,
    List.forallb (fun ev => negb (is_lifecycle_event ev))
      (trace (convert_jobs w total start docx_files)) = true.
Proof.
  induction docx_files as [|p rest IH]; intros start; [reflexivity|].
  rewrite convert_jobs_cons. unfold trace at 1. simpl fst.
  rewrite List.forallb_app, IH, andb_true_r.
  rewrite convert_job_run. unfold trace, job_calls, job_failure. simpl fst.
  destruct (Documents_Open w p); [reflexivity|].
  destruct (Export_As_Fixed_Format w p (pdf_path_of w p)); [reflexivity|].
  destruct (Doc_Close w p); reflexivity.
Qed.

(** The whole of [convert_all_docx_in_folder] when files were found. *)
Lemma convert_all_run (base_dir : string) :
  let docx_files := list_docx_files (flavour w) (folder w) base_dir in
  docx_files <> [] ->
  convert_all_docx_in_folder w base_dir =
  if engine_obtainable w
  then
    ((trace (announce w docx_files) ++ trace (ensure_pywin32 w) ++
      [ Print (Str.nl ++ "Starting conversion using Microsoft Word...");
        CoInitialize; DispatchEx "Word.Application"; SetVisible false ] ++
      trace (convert_jobs w (Z.of_nat (List.length docx_files)) 1 docx_files) ++
      [ Quit; CoUninitialize ] ++
      trace (summary w docx_files))%list, Ok tt)
  else
    ((trace (announce w docx_files) ++ trace (ensure_pywin32 w))%list,
     Raise (SystemExit 1)).
Proof.
  intros docx_files Hne.
  unfold convert_all_docx_in_folder, Run.convert_all_docx_in_folder.
  fold (ensure_pywin32 w) (summary w docx_files).
  fold docx_files. destruct docx_files as [|first rest] eqn:E; [congruence|].
  rewrite <- E. clear E Hne.
  destruct (announce_quiet docx_files) as [Ha _].
  destruct ensure_pywin32_run as [He _].
  rewrite (bind_ok _ _ tt) by exact Ha.
  destruct (engine_obtainable w).
  - rewrite (bind_ok (ensure_pywin32 w) _ tt) by exact He.
    pose proof (convert_jobs_ok w (Z.of_nat (List.length docx_files))
                  docx_files 1) as Hj.
    change (Run.summary host_returns w) with (summary w).
    rewrite !summary_run.
    change (Run.word_session host_returns) with word_session.
    rewrite word_session_run.
    unfold bind, print, emit, outcome, trace in *.
    simpl. rewrite Hj. simpl.
    rewrite <- !List.app_assoc. reflexivity.
  - rewrite (bind_raise (ensure_pywin32 w) _ (SystemExit 1)) by exact He.
    reflexivity.
Qed.

End WholeRun.

(* ================================================================== *)
(** * Counting engine events *)

Section Counting.

Variable w : world.

Lemma count_quiet P (tr : list event) :
  (forall ev, P ev = true -> is_engine_event ev = true) ->
  List.forallb (fun ev => negb (is_engine_event ev)) tr = true ->
  count P tr = 0%nat.
Proof.
  intros HP. apply count_none. intros ev Hev.
  destruct (P ev) eqn:E; [|reflexivity].
  rewrite (HP ev E) in Hev. discriminate.
Qed.

Lemma count_jobs P (total start : Z) (docx_files : list string) :
  (forall ev, P ev = true -> is_lifecycle_event ev = true) ->
  count P (trace (convert_jobs w total start docx_files)) = 0%nat.
Proof.
  intros HP.
  apply (count_none P (fun ev => negb (is_lifecycle_event ev))).
  - intros ev Hev. destruct (P ev) eqn:E; [|reflexivity].
    rewrite (HP ev E) in Hev. discriminate.
  - apply convert_jobs_no_lifecycle.
Qed.

(** How often a life-cycle event of kind [P] occurs in a run that found
    files: as often as in the fixed block around the loop. *)
Lemma count_lifecycle P (base_dir : string) :
  (forall ev, P ev = true -> is_lifecycle_event ev = true) ->
  list_docx_files (flavour w) (folder w) base_dir <> [] ->
  count P (trace (convert_all_docx_in_folder w base_dir)) =
  if engine_obtainable w
  then count P [CoInitialize; DispatchEx "Word.Application"; SetVisible false;
                Quit; CoUninitialize]
  else 0%nat.
Proof.
  intros HP Hne.
  assert (HE : forall ev, P ev = true -> is_engine_event ev = true).
  { intros ev Hev. apply HP in Hev. destruct ev; try discriminate; reflexivity. }
  rewrite (convert_all_run w base_dir Hne).
  destruct (announce_quiet w (list_docx_files (flavour w) (folder w) base_dir))
    as [_ Ha].
  destruct (ensure_pywin32_run w) as [_ He].
  destruct (engine_obtainable w); rewrite trace_pair.
  - rewrite !count_app.
    rewrite (count_quiet P _ HE Ha), (count_quiet P _ HE He).
    rewrite (count_jobs P _ _ _ HP).
    rewrite summary_run, trace_pair.
    unfold count. cbn [List.filter List.length List.app].
    destruct (P CoInitialize), (P (DispatchEx "Word.Application")),
      (P (SetVisible false)), (P Quit), (P CoUninitialize); simpl;
      repeat match goal with
             | |- context [P ?e] =>
                 let E := fresh in
                 destruct (P e) eqn:E;
                 [apply HP in E; discriminate|]
             end; reflexivity.
  - rewrite !count_app.
    rewrite (count_quiet P _ HE Ha), (count_quiet P _ HE He). reflexivity.
Qed.

(** A run that found no file performs three console events. *)
Lemma convert_all_empty (base_dir : string) :
  list_docx_files (flavour w) (folder w) base_dir = [] ->
  convert_all_docx_in_folder w base_dir =
  ([ Print "No .docx files found in this folder:";
     Print ("  " ++ base_dir);
     Input (Str.nl ++ "Press Enter to exit...") ], Ok tt).
Proof.
  intros E.
  unfold convert_all_docx_in_folder, Run.convert_all_docx_in_folder.
  rewrite E. reflexivity.
Qed.

End Counting.

(* ================================================================== *)
(** * Jobs and worlds *)

Section JobLemmas.

(** Two worlds with the same path rules that give the same answers for a
    file run its job alike. *)
Lemma convert_job_same (w w' : world) (total index : Z) (q : string) :
  flavour w' = flavour w ->
  Documents_Open w' q = Documents_Open w q ->
  (forall o, Export_As_Fixed_Format w' q o = Export_As_Fixed_Format w q o) ->
  Doc_Close w' q = Doc_Close w q ->
  convert_job w' total index q = convert_job w total index q.
Proof.
  intros Hfl Ho He Hc. rewrite !convert_job_run.
  unfold job_header, job_calls, job_failure, error_report, pdf_path_of.
  rewrite Hfl, Ho, He, Hc. reflexivity.
Qed.

Lemma convert_jobs_same (w w' : world) (total : Z) (qs : list string) :
  flavour w' = flavour w ->
  (forall q, In q qs ->
     Documents_Open w' q = Documents_Open w q /\
     (forall o, Export_As_Fixed_Format w' q o = Export_As_Fixed_Format w q o) /\
     Doc_Close w' q = Doc_Close w q) ->
  forall start,
    convert_jobs w' total start qs = convert_jobs w total start qs.
Proof.
  intros Hfl. induction qs as [|q qs IH]; intros H start; [reflexivity|].
  rewrite !convert_jobs_cons.
  destruct (H q (or_introl eq_refl)) as (Ho & He & Hc).
  rewrite (convert_job_same w w' total start q Hfl Ho He Hc).
  rewrite IH; [reflexivity|]. intros q' Hq'. apply H. right. exact Hq'.
Qed.

(** Every job of the list is attempted: its call to [Documents.Open] is in
    the trace. *)
Lemma convert_jobs_attempts (w : world) (total : Z) (qs : list string) :
  forall start q, In q qs ->
    In (DocumentsOpen q (Documents_Open w q))
       (trace (convert_jobs w total start qs)).
Proof.
  induction qs as [|q0 qs IH]; intros start q Hq; [contradiction|].
  rewrite convert_jobs_cons, trace_pair. apply List.in_or_app.
  destruct Hq as [->|Hq]; [left|right; apply IH; exact Hq].
  rewrite convert_job_run, trace_pair.
  apply List.in_or_app. right. apply List.in_or_app. left.
  unfold job_calls. left. reflexivity.
Qed.

(** A job whose export fails makes no call to [Close]; a job on another
    file makes none on this document either. *)
Lemma convert_job_no_close (w : world) (total index : Z) (p q msg : string) :
  Documents_Open w p = None ->
  Export_As_Fixed_Format w p (pdf_path_of w p) = Some msg ->
  count (is_DocClose_of p) (trace (convert_job w total index q)) = 0%nat.
Proof.
  intros Ho He. rewrite convert_job_run, trace_pair, !count_app.
  assert (Hh : count (is_DocClose_of p) (job_header w total index q) = 0%nat)
    by reflexivity.
  assert (Hr : count (is_DocClose_of p)
                 match job_failure w q with
                 | Some m => error_report w total index q m
                 | None => ok_report total index
                 end = 0%nat)
    by (destruct (job_failure w q); reflexivity).
  rewrite Hh, Hr. unfold job_calls.
  destruct (String.eqb_spec q p) as [->|Hne].
  - rewrite Ho, He. reflexivity.
  - apply String.eqb_neq in Hne.
    destruct (Documents_Open w q); [reflexivity|].
    destruct (Export_As_Fixed_Format w q (pdf_path_of w q)); [reflexivity|].
    unfold count. simpl. rewrite Hne. reflexivity.
Qed.

Lemma convert_jobs_no_close (w : world) (total : Z) (p msg : string)
  (qs : list string) :
  Documents_Open w p = None ->
  Export_As_Fixed_Format w p (pdf_path_of w p) = Some msg ->
  forall start,
    count (is_DocClose_of p) (trace (convert_jobs w total start qs)) = 0%nat.
Proof.
  intros Ho He. induction qs as [|q qs IH]; intros start; [reflexivity|].
  rewrite convert_jobs_cons, trace_pair, count_app, IH.
  rewrite (convert_job_no_close w total start p q msg Ho He). reflexivity.
Qed.

Lemma print_intro_run (w : world) (dir : string) :
  outcome (print_intro w dir) = Ok tt /\
  List.forallb (fun ev => negb (is_engine_event ev))
    (trace (print_intro w dir)) = true.
Proof. split; reflexivity. Qed.

End JobLemmas.

(* ================================================================== *)
(** * Runs on any host *)

Section RunAnyHost.

Variable h : host.
Variable w : world.

Lemma com_returns_failure : com_returns h = true <-> session_failure h = None.
Proof.
  unfold com_returns, session_starts, session_ends, session_failure.
  destruct (CoInitialize_answer h), (DispatchEx_answer h), (Visible_answer h),
    (Quit_answer h), (CoUninitialize_answer h); simpl; split; congruence.
Qed.

(** The session on any host: its events, and its outcome when the body
    returns or raises. *)
Lemma run_word_session (body : prog unit) :
  Run.word_session h body =
  (session_events h (trace body),
   match session_failure h with
   | Some msg => Raise (Exception msg)
   | None => outcome body
   end).
Proof.
  unfold Run.word_session, session_events, session_failure.
  destruct body as [tr [[]|e]];
    destruct (CoInitialize_answer h), (DispatchEx_answer h),
      (Visible_answer h), (Quit_answer h), (CoUninitialize_answer h);
    reflexivity.
Qed.

(** The dependency check on any host performs the events of the check on a
    host that returns; only the outcome of the fatal branch depends on
    [input]. *)
Lemma run_ensure_pywin32 :
  trace (Run.ensure_pywin32 h w) = trace (ensure_pywin32 w) /\
  outcome (Run.ensure_pywin32 h w) =
    if engine_obtainable w then Ok tt
    else match input_answer h with
         | None => Raise (SystemExit 1)
         | Some msg => Raise (Exception msg)
         end.
Proof.
  unfold ensure_pywin32, Run.ensure_pywin32, Run.input, engine_obtainable,
    imports_ok.
  destruct (input_answer h),
    (import_module w "pythoncom"),
    (import_module w "win32com.client"),
    (pip_install w),
    (import_module_again w "pythoncom"),
    (import_module_again w "win32com.client");
    split; vm_compute; reflexivity.
Qed.

Lemma run_summary (docx_files : list string) :
  trace (Run.summary h w docx_files) = trace (summary w docx_files) /\
  outcome (Run.summary h w docx_files) =
    match input_answer h with
    | None => Ok tt
    | Some msg => Raise (Exception msg)
    end.
Proof.
  unfold summary, Run.summary, Run.input.
  destruct (Z.of_nat (List.length docx_files) =? 1), (input_answer h);
    split; reflexivity.
Qed.

(** A run that found no file, on any host. *)
Lemma run_convert_all_empty (base_dir : string) :
  list_docx_files (flavour w) (folder w) base_dir = [] ->
  Run.convert_all_docx_in_folder h w base_dir =
  ([ Print "No .docx files found in this folder:";
     Print ("  " ++ base_dir);
     Input (Str.nl ++ "Press Enter to exit...") ],
   match input_answer h with
   | None => Ok tt
   | Some msg => Raise (Exception msg)
   end).
Proof.
  intros E. unfold Run.convert_all_docx_in_folder, Run.input. rewrite E.
  destruct (input_answer h); reflexivity.
Qed.

(** A run that found files, on any host. *)
Lemma run_convert_all (base_dir : string) :
  let docx_files := list_docx_files (flavour w) (folder w) base_dir in
  let jobs := convert_jobs w (Z.of_nat (List.length docx_files)) 1 docx_files in
  docx_files <> [] ->
  Run.convert_all_docx_in_folder h w base_dir =
  if engine_obtainable w
  then
    match session_failure h with
    | Some msg =>
        ((trace (announce w docx_files) ++ trace (ensure_pywin32 w) ++
          [ Print (Str.nl ++ "Starting conversion using Microsoft Word...") ] ++
          session_events h (trace jobs))%list,
         Raise (Exception msg))
    | None =>
        ((trace (announce w docx_files) ++ trace (ensure_pywin32 w) ++
          [ Print (Str.nl ++ "Starting conversion using Microsoft Word...") ] ++
          session_events h (trace jobs) ++ trace (summary w docx_files))%list,
         match input_answer h with
         | None => Ok tt
         | Some msg => Raise (Exception msg)
         end)
    end
  else
    ((trace (announce w docx_files) ++ trace (ensure_pywin32 w))%list,
     match input_answer h with
     | None => Raise (SystemExit 1)
     | Some msg => Raise (Exception msg)
     end).
Proof.
  intros docx_files jobs Hne. unfold jobs. clear jobs.
  unfold Run.convert_all_docx_in_folder.
  fold docx_files. destruct docx_files as [|first rest] eqn:E; [congruence|].
  rewrite <- E. clear E Hne.
  set (jobs := convert_jobs w (Z.of_nat (List.length docx_files)) 1 docx_files).
  destruct (announce_quiet w docx_files) as [Ha _].
  destruct run_ensure_pywin32 as [Het Heo].
  destruct (run_summary docx_files) as [Hst Hso].
  rewrite (bind_ok _ _ tt) by exact Ha.
  destruct (engine_obtainable w).
  - rewrite (bind_ok (Run.ensure_pywin32 h w) _ tt) by exact Heo.
    rewrite (bind_ok (print _) _ tt) by reflexivity.
    rewrite run_word_session.
    assert (Hj : outcome jobs = Ok tt) by apply convert_jobs_ok.
    rewrite Hj, Het.
    destruct (session_failure h) as [msg|].
    + rewrite (bind_raise _ _ (Exception msg)) by reflexivity.
      rewrite !trace_pair. reflexivity.
    + rewrite (bind_ok _ _ tt) by reflexivity.
      rewrite !trace_pair, !outcome_pair, Hst, Hso.
      unfold print, emit. rewrite trace_pair.
      rewrite <- ?List.app_assoc. reflexivity.
  - destruct (input_answer h) as [msg|];
      rewrite (bind_raise (Run.ensure_pywin32 h w) _ _ Heo), Het; reflexivity.
Qed.

Lemma run_main :
  Run.main h w =
  ((trace (print_intro w (working_dir w)) ++
    trace (Run.convert_all_docx_in_folder h w (working_dir w)))%list,
   outcome (Run.convert_all_docx_in_folder h w (working_dir w))).
Proof.
  unfold Run.main. fold (working_dir w).
  rewrite (bind_ok _ _ tt) by apply print_intro_run. reflexivity.
Qed.

End RunAnyHost.

(* ================================================================== *)
(** * Lemmas on strings *)

Section StringLemmas.

Lemma app_nil_r (s : string) : s ++ EmptyString = s.
Proof. induction s as [|a s IH]; simpl; [|rewrite IH]; reflexivity. Qed.

Lemma app_assoc (a b c : string) : (a ++ b) ++ c = a ++ (b ++ c).
Proof. induction a as [|x a IH]; simpl; [|rewrite IH]; reflexivity. Qed.

Lemma length_app (a b : string) :
  String.length (a ++ b) = (String.length a + String.length b)%nat.
Proof. induction a as [|x a IH]; simpl; [|rewrite IH]; reflexivity. Qed.

Lemma drop_app (a b : string) : Str.drop (String.length a) (a ++ b) = b.
Proof. induction a as [|x a IH]; simpl; [destruct b|]; auto. Qed.

Lemma take_app (a b : string) (n : nat) :
  Str.take (String.length a + n) (a ++ b) = a ++ Str.take n b.
Proof. induction a as [|x a IH]; simpl; [|rewrite IH]; reflexivity. Qed.

Lemma take_all (a : string) : Str.take (String.length a) a = a.
Proof. induction a as [|x a IH]; simpl; [|rewrite IH]; reflexivity. Qed.

Lemma from_app (a b : string) :
  Str.from (Z.of_nat (String.length a)) (a ++ b) = b.
Proof. unfold Str.from. rewrite Nat2Z.id. apply drop_app. Qed.

Lemma upto_app (a b : string) :
  Str.upto (Z.of_nat (String.length a)) (a ++ b) = a.
Proof.
  unfold Str.upto. rewrite Nat2Z.id.
  rewrite <- (Nat.add_0_r (String.length a)), take_app.
  destruct b; simpl; apply app_nil_r.
Qed.

Lemma forallb_app P (a b : string) :
  Str.forallb P (a ++ b) = Str.forallb P a && Str.forallb P b.
Proof.
  induction a as [|x a IH]; simpl; [reflexivity|].
  rewrite IH, andb_assoc. reflexivity.
Qed.

Lemma map_app f (a b : string) :
  Str.map f (a ++ b) = Str.map f a ++ Str.map f b.
Proof. induction a as [|x a IH]; simpl; [|rewrite IH]; reflexivity. Qed.

(** A mapped string splits where its image splits. *)
Lemma map_split f (s a b : string) :
  Str.map f s = a ++ b ->
  exists s1 s2, s = s1 ++ s2 /\ Str.map f s1 = a /\ Str.map f s2 = b.
Proof.
  revert s. induction a as [|x a IH]; intros s H.
  - exists EmptyString, s. auto.
  - destruct s as [|y s]; [discriminate|]. simpl in H.
    injection H as Hx Hs. destruct (IH s Hs) as (s1 & s2 & -> & H1 & H2).
    exists (String y s1), s2. simpl. rewrite Hx, H1. auto.
Qed.

Lemma endswith_cons (x : ascii) (s p : string) :
  Str.endswith (String x s) p =
  String.eqb (String x s) p || Str.endswith s p.
Proof. reflexivity. Qed.

Lemma endswith_split (s p : string) :
  Str.endswith s p = true -> exists a, s = a ++ p.
Proof.
  induction s as [|x s IH]; intros H.
  - destruct p; [|discriminate]. exists EmptyString. reflexivity.
  - rewrite endswith_cons in H. apply orb_true_iff in H as [H|H].
    + apply String.eqb_eq in H. exists EmptyString. exact H.
    + destruct (IH H) as [a ->]. exists (String x a). reflexivity.
Qed.

Lemma endswith_refl (p : string) : Str.endswith p p = true.
Proof.
  destruct p; [reflexivity|].
  rewrite endswith_cons, String.eqb_refl. reflexivity.
Qed.

Lemma endswith_app (a p : string) : Str.endswith (a ++ p) p = true.
Proof.
  induction a as [|x a IH]; [apply endswith_refl|].
  simpl String.append. rewrite endswith_cons, IH. apply orb_true_r.
Qed.

Lemma rfind_if_bounds P (s : string) :
  -1 <= Str.rfind_if P s < Z.of_nat (String.length s).
Proof.
  induction s as [|a s IH]; simpl Str.rfind_if; simpl String.length; [lia|].
  destruct (0 <=? Str.rfind_if P s) eqn:E; [|destruct (P a)]; lia.
Qed.

Lemma rfind_if_none P (s : string) :
  Str.forallb (fun a => negb (P a)) s = true -> Str.rfind_if P s = -1.
Proof.
  induction s as [|a s IH]; simpl; intros H; [reflexivity|].
  apply andb_true_iff in H as [Ha Hs]. rewrite (IH Hs). simpl.
  destruct (P a); [discriminate|reflexivity].
Qed.

Lemma rfind_if_app P (a b : string) :
  Str.rfind_if P (a ++ b) =
  if 0 <=? Str.rfind_if P b
  then Z.of_nat (String.length a) + Str.rfind_if P b
  else Str.rfind_if P a.
Proof.
  induction a as [|x a IH].
  - simpl. pose proof (rfind_if_bounds P b).
    destruct (0 <=? Str.rfind_if P b) eqn:E; lia.
  - simpl String.append. simpl Str.rfind_if. rewrite IH.
    pose proof (rfind_if_bounds P b).
    destruct (0 <=? Str.rfind_if P b) eqn:E.
    + replace (0 <=? Z.of_nat (String.length a) + Str.rfind_if P b) with true
        by (symmetry; apply Z.leb_le; lia).
      simpl String.length. lia.
    + reflexivity.
Qed.

Lemma rfind_if_ext P Q (s : string) :
  (forall a, P a = Q a) -> Str.rfind_if P s = Str.rfind_if Q s.
Proof.
  intros H. induction s as [|a s IH]; simpl; [reflexivity|].
  rewrite IH, H. reflexivity.
Qed.

Lemma rfind_if_max P Q (s : string) :
  Z.max (Str.rfind_if P s) (Str.rfind_if Q s) =
  Str.rfind_if (fun a => P a || Q a) s.
Proof.
  induction s as [|a s IH]; simpl Str.rfind_if; [reflexivity|].
  pose proof (rfind_if_bounds P s). pose proof (rfind_if_bounds Q s).
  rewrite <- IH.
  destruct (0 <=? Str.rfind_if P s) eqn:EP;
    destruct (0 <=? Str.rfind_if Q s) eqn:EQ;
    destruct (0 <=? Z.max (Str.rfind_if P s) (Str.rfind_if Q s)) eqn:EM;
    destruct (P a), (Q a); simpl; lia.
Qed.

End StringLemmas.

(* ================================================================== *)
(** * Lemmas on paths *)

Section PathLemmas.

Variable fl : OsPath.flavour.

Lemma sep_index_rfind_if (p : string) :
  OsPath.sep_index fl p = Str.rfind_if (OsPath.is_sep fl) p.
Proof.
  unfold OsPath.sep_index, OsPath.is_sep, Str.rfind. destruct fl; simpl.
  - apply rfind_if_ext. intros a. rewrite orb_false_r. reflexivity.
  - apply rfind_if_max.
Qed.

Lemma is_sep_sep : OsPath.is_sep fl (OsPath.sep fl) = true.
Proof. destruct fl; reflexivity. Qed.

Lemma valid_name_inv (n : string) :
  valid_name fl n = true ->
  n <> EmptyString /\
  Str.forallb (fun c => negb (OsPath.is_sep fl c)) n = true.
Proof.
  unfold valid_name. intros H. apply andb_true_iff in H as [H1 H2].
  split; [|exact H2]. intros ->. discriminate.
Qed.

Lemma sep_index_dirlike (pre n : string) :
  dirlike fl pre ->
  Str.forallb (fun c => negb (OsPath.is_sep fl c)) n = true ->
  OsPath.sep_index fl (pre ++ n) + 1 = Z.of_nat (String.length pre).
Proof.
  intros Hpre Hn. rewrite sep_index_rfind_if, rfind_if_app.
  rewrite (rfind_if_none _ n Hn). simpl.
  destruct Hpre as [->|(pre' & c & -> & Hc)]; [reflexivity|].
  rewrite rfind_if_app. simpl. rewrite Hc. simpl.
  rewrite length_app. simpl. lia.
Qed.

Lemma basename_dirlike (pre n : string) :
  dirlike fl pre ->
  Str.forallb (fun c => negb (OsPath.is_sep fl c)) n = true ->
  OsPath.basename fl (pre ++ n) = n.
Proof.
  intros Hpre Hn. unfold OsPath.basename.
  rewrite (sep_index_dirlike pre n Hpre Hn). apply from_app.
Qed.

Lemma split_dirlike (pre n : string) :
  dirlike fl pre ->
  Str.forallb (fun c => negb (OsPath.is_sep fl c)) n = true ->
  OsPath.split fl (pre ++ n) = (head_of fl pre, n).
Proof.
  intros Hpre Hn. unfold OsPath.split, head_of.
  rewrite (sep_index_dirlike pre n Hpre Hn), upto_app, from_app.
  destruct (negb (String.eqb pre EmptyString) &&
            negb (Str.forallb (OsPath.is_sep fl) pre)); reflexivity.
Qed.

Lemma last_is_sep_inv (path : string) :
  OsPath.last_is_sep fl path = true ->
  exists pre' c, path = pre' ++ String c EmptyString /\
                 OsPath.is_sep fl c = true.
Proof.
  unfold OsPath.last_is_sep. destruct fl.
  - intros H. apply endswith_split in H as [a ->]. eauto.
  - intros H. apply orb_true_iff in H as [H|H];
      apply endswith_split in H as [a ->]; eauto.
Qed.

Lemma dir_prefix_dirlike (path : string) : dirlike fl (dir_prefix fl path).
Proof.
  unfold dir_prefix.
  destruct (String.eqb_spec path EmptyString) as [->|Hne]; [left; reflexivity|].
  simpl. destruct (OsPath.last_is_sep fl path) eqn:E.
  - right. apply last_is_sep_inv. exact E.
  - right. exists path, (OsPath.sep fl). split; [reflexivity|apply is_sep_sep].
Qed.

Lemma join_rel (path n : string) :
  valid_name fl n = true ->
  OsPath.join fl path n = dir_prefix fl path ++ n.
Proof.
  intros H. apply valid_name_inv in H as [Hne Hn].
  unfold OsPath.join, dir_prefix.
  destruct n as [|c n]; [congruence|].
  simpl in Hn. apply andb_true_iff in Hn as [Hc _].
  apply negb_true_iff in Hc. rewrite Hc.
  destruct (String.eqb path EmptyString || OsPath.last_is_sep fl path);
    [reflexivity|].
  rewrite app_assoc. reflexivity.
Qed.

(** [os.path.splitext] on a file name that does not begin with a dot and
    ends with a dot followed by characters that are no dots. *)
Lemma splitext_dirlike (pre stem ext : string) (x : ascii) :
  dirlike fl pre ->
  Str.forallb (fun c => negb (OsPath.is_sep fl c)) (String x stem) = true ->
  Ascii.eqb x "." = false ->
  Str.forallb (fun c => negb (OsPath.is_sep fl c)) ext = true ->
  Str.forallb (fun c => negb (Ascii.eqb c ".")) ext = true ->
  OsPath.splitext fl (pre ++ String x stem ++ String "." ext) =
  (pre ++ String x stem, String "." ext).
Proof.
  intros Hpre Hstem Hx Hsep Hdot.
  assert (Hn : Str.forallb (fun c => negb (OsPath.is_sep fl c))
                 (String x stem ++ String "." ext) = true).
  { rewrite forallb_app, Hstem. simpl. rewrite Hsep.
    destruct fl; reflexivity. }
  unfold OsPath.splitext.
  pose proof (sep_index_dirlike pre _ Hpre Hn) as Hs.
  assert (Hd : Str.rfind "." (pre ++ String x stem ++ String "." ext) =
               Z.of_nat (String.length (pre ++ String x stem))).
  { rewrite <- app_assoc. unfold Str.rfind. rewrite rfind_if_app.
    assert (H0 : Str.rfind_if (fun a => Ascii.eqb a ".") (String "." ext) = 0).
    { simpl. rewrite (rfind_if_none _ ext Hdot). reflexivity. }
    rewrite H0. simpl. lia. }
  rewrite Hd.
  set (p := pre ++ String x stem ++ String "." ext) in *.
  assert (Hs' : OsPath.sep_index fl p = Z.of_nat (String.length pre) - 1)
    by lia.
  rewrite Hs'.
  replace (Z.of_nat (String.length pre) - 1 + 1)
    with (Z.of_nat (String.length pre)) by lia.
  replace (Z.of_nat (String.length pre) - 1
             <? Z.of_nat (String.length (pre ++ String x stem)))
    with true
    by (symmetry; apply Z.ltb_lt; rewrite length_app; simpl; lia).
  unfold Str.slice, p. rewrite <- app_assoc, !upto_app, !from_app.
  unfold Str.existsb. simpl. rewrite Hx. reflexivity.
Qed.

End PathLemmas.

(* ================================================================== *)
(** * Lemmas on discovery *)

Section DiscoveryLemmas.

Lemma filter_filter {X} (f g : X -> bool) (l : list X) :
  List.filter f (List.filter g l) = List.filter (fun x => g x && f x) l.
Proof.
  induction l as [|x l IH]; simpl; [reflexivity|].
  destruct (g x); simpl; [destruct (f x)|]; rewrite IH; reflexivity.
Qed.

Lemma filter_map {X Y} (f : Y -> bool) (g : X -> Y) (l : list X) :
  List.filter f (List.map g l) = List.map g (List.filter (fun x => f (g x)) l).
Proof.
  induction l as [|x l IH]; simpl; [reflexivity|].
  destruct (f (g x)); simpl; rewrite IH; reflexivity.
Qed.

Lemma filter_ext_forallb {X} (v f g : X -> bool) (l : list X) :
  List.forallb v l = true ->
  (forall x, v x = true -> f x = g x) ->
  List.filter f l = List.filter g l.
Proof.
  intros Hv H. induction l as [|x l IH]; simpl; [reflexivity|].
  simpl in Hv. apply andb_true_iff in Hv as [Hx Hl].
  rewrite (H x Hx), (IH Hl). reflexivity.
Qed.

Lemma forallb_filter {X} (v f : X -> bool) (l : list X) :
  List.forallb v l = true -> List.forallb v (List.filter f l) = true.
Proof.
  induction l as [|x l IH]; simpl; [reflexivity|]. intros H.
  apply andb_true_iff in H as [Hx Hl].
  destruct (f x); simpl; [rewrite Hx|]; auto.
Qed.

Lemma map_ext_forallb {X Y} (v : X -> bool) (f g : X -> Y) (l : list X) :
  List.forallb v l = true ->
  (forall x, v x = true -> f x = g x) ->
  List.map f l = List.map g l.
Proof.
  intros Hv H. induction l as [|x l IH]; simpl; [reflexivity|].
  simpl in Hv. apply andb_true_iff in Hv as [Hx Hl].
  rewrite (H x Hx), (IH Hl). reflexivity.
Qed.

(** The literal tail of the pattern. *)
Lemma fnmatch_dot_docx (n : string) :
  Fnmatch.fnmatchcase ".docx" n = String.eqb n ".docx".
Proof.
  destruct n as [|c1 [|c2 [|c3 [|c4 [|c5 [|c6 n]]]]]];
    cbn [Fnmatch.fnmatchcase String.eqb];
    rewrite ?(Ascii.eqb_sym c1), ?(Ascii.eqb_sym c2), ?(Ascii.eqb_sym c3),
      ?(Ascii.eqb_sym c4), ?(Ascii.eqb_sym c5);
    repeat match goal with
           | |- context [Ascii.eqb ?a ?b] => destruct (Ascii.eqb a b)
           end; reflexivity.
Qed.

(** The pattern [*.docx] accepts the names that end with [.docx]. *)
Lemma fnmatch_star_docx (n : string) :
  Fnmatch.fnmatchcase "*.docx" n = Str.endswith n ".docx".
Proof.
  induction n as [|a n IH]; [reflexivity|].
  change (Fnmatch.fnmatchcase "*.docx" (String a n))
    with (Fnmatch.fnmatchcase ".docx" (String a n) ||
          Fnmatch.fnmatchcase "*.docx" n).
  rewrite fnmatch_dot_docx, IH, endswith_cons. reflexivity.
Qed.

Lemma ishidden_dot_file (n : string) : Glob.ishidden n = is_dot_file n.
Proof.
  destruct n as [|a n]; [reflexivity|].
  destruct a as [[] [] [] [] [] [] [] []]; reflexivity.
Qed.

Variable fl : OsPath.flavour.

Lemma glob1_docx (names : list string) :
  Glob.glob1 fl names "*.docx" =
  List.filter (fun n => negb (is_dot_file n) && has_docx_extension fl n) names.
Proof.
  unfold Glob.glob1, Fnmatch.filter, has_docx_extension.
  replace (OsPath.normcase fl "*.docx") with "*.docx"
    by (destruct fl; reflexivity).
  simpl negb. cbv iota. rewrite filter_filter.
  apply List.filter_ext. intros n.
  rewrite ishidden_dot_file, fnmatch_star_docx. reflexivity.
Qed.

Lemma pattern_valid : valid_name fl "*.docx" = true.
Proof. destruct fl; reflexivity. Qed.

Lemma glob_dirname_head (base_dir : string) :
  glob_dirname fl base_dir = head_of fl (dir_prefix fl base_dir).
Proof.
  unfold glob_dirname. rewrite (join_rel fl _ _ pattern_valid).
  rewrite split_dirlike; [reflexivity|apply dir_prefix_dirlike|].
  destruct fl; reflexivity.
Qed.

Lemma glob_docx (names : list string) (base_dir : string) :
  List.forallb (valid_name fl) names = true ->
  Glob.glob fl names (OsPath.join fl base_dir "*.docx") =
  List.map (OsPath.join fl (glob_dirname fl base_dir))
    (Glob.glob1 fl names "*.docx").
Proof.
  intros Hv. unfold Glob.glob. rewrite glob_dirname_head.
  rewrite (join_rel fl _ _ pattern_valid).
  rewrite split_dirlike;
    [|apply dir_prefix_dirlike|destruct fl; reflexivity].
  destruct (String.eqb_spec (head_of fl (dir_prefix fl base_dir)) EmptyString)
    as [E|E]; [|reflexivity].
  rewrite E, glob1_docx.
  rewrite <- (List.map_id (List.filter _ names)) at 1.
  apply (map_ext_forallb (valid_name fl)).
  - apply forallb_filter. exact Hv.
  - intros n Hn. rewrite (join_rel fl _ _ Hn). reflexivity.
Qed.

(** Discovery, name by name. *)
Lemma list_docx_files_spec (names : list string) (base_dir : string) :
  List.forallb (valid_name fl) names = true ->
  list_docx_files fl names base_dir =
  List.map (OsPath.join fl (glob_dirname fl base_dir))
    (List.filter
       (fun n => has_docx_extension fl n && negb (is_lock_file n) &&
                 negb (is_dot_file n))
       names).
Proof.
  intros Hv. unfold list_docx_files.
  rewrite (glob_docx names base_dir Hv), filter_map, glob1_docx, filter_filter.
  f_equal. apply (filter_ext_forallb (valid_name fl)); [exact Hv|].
  intros n Hn. rewrite (join_rel fl _ _ Hn).
  rewrite basename_dirlike;
    [|apply dir_prefix_dirlike|apply (valid_name_inv fl n Hn)].
  unfold is_lock_file.
  destruct (is_dot_file n), (has_docx_extension fl n),
    (Str.startswith n "~$"); reflexivity.
Qed.

End DiscoveryLemmas.

Section ExtensionLemmas.

Variable fl : OsPath.flavour.

Lemma normcase_char_dot (c : ascii) :
  OsPath.normcase_char fl c = "."%char -> c = "."%char.
Proof.
  destruct fl; [auto|].
  destruct c as [[] [] [] [] [] [] [] []]; vm_compute; intros H;
    try reflexivity; discriminate.
Qed.

Lemma normcase_char_letter (c l : ascii) :
  OsPath.normcase_char fl c = l -> Ascii.eqb l "." = false ->
  Ascii.eqb c "." = false.
Proof.
  intros H Hl. destruct (Ascii.eqb_spec c ".") as [->|]; [|reflexivity].
  assert (E : OsPath.normcase_char fl "." = "."%char)
    by (destruct fl; reflexivity).
  rewrite E in H. subst l. discriminate.
Qed.

(** The shape of a name that discovery accepts: a stem that begins with a
    character other than the dot, then a dot and four characters that read
    [docx] under the case rule. *)
Lemma docx_name_shape (n : string) :
  valid_name fl n = true ->
  has_docx_extension fl n = true ->
  is_dot_file n = false ->
  exists x stem e,
    n = String x stem ++ String "." e /\
    Ascii.eqb x "." = false /\
    OsPath.normcase fl (String "." e) = ".docx" /\
    Str.forallb (fun c => negb (OsPath.is_sep fl c)) (String x stem) = true /\
    Str.forallb (fun c => negb (OsPath.is_sep fl c)) e = true /\
    Str.forallb (fun c => negb (Ascii.eqb c ".")) e = true.
Proof.
  intros Hv He Hd. apply valid_name_inv in Hv as [_ Hv].
  unfold has_docx_extension in He.
  apply endswith_split in He as [a Ha].
  apply map_split in Ha as (n1 & n2 & -> & _ & H2).
  destruct n2 as [|c0 [|c1 [|c2 [|c3 [|c4 [|c5 n2]]]]]]; try discriminate.
  simpl in H2. injection H2 as H0 H1 H2 H3 H4.
  apply normcase_char_dot in H0. subst c0.
  rewrite forallb_app in Hv. apply andb_true_iff in Hv as [Hv1 Hv2].
  destruct n1 as [|x stem]; [discriminate|].
  exists x, stem, (String c1 (String c2 (String c3 (String c4 EmptyString)))).
  split; [reflexivity|]. split.
  { unfold is_dot_file in Hd. cbn [String.append Str.startswith] in Hd.
    rewrite andb_true_r, Ascii.eqb_sym in Hd. exact Hd. }
  split.
  { unfold OsPath.normcase. simpl. rewrite H1, H2, H3, H4.
    destruct fl; reflexivity. }
  split; [exact Hv1|]. split.
  { simpl in Hv2. apply andb_true_iff in Hv2 as [_ Hv2]. exact Hv2. }
  simpl.
  rewrite (normcase_char_letter c1 _ H1 eq_refl),
    (normcase_char_letter c2 _ H2 eq_refl),
    (normcase_char_letter c3 _ H3 eq_refl),
    (normcase_char_letter c4 _ H4 eq_refl).
  reflexivity.
Qed.

(** A discovered path is the prefix of the folder followed by an accepted
    name of the folder. *)
Lemma discovered_inv (names : list string) (base_dir f : string) :
  List.forallb (valid_name fl) names = true ->
  In f (list_docx_files fl names base_dir) ->
  exists n,
    f = dir_prefix fl (glob_dirname fl base_dir) ++ n /\
    In n names /\ valid_name fl n = true /\
    has_docx_extension fl n = true /\
    is_lock_file n = false /\ is_dot_file n = false.
Proof.
  intros Hv Hf. rewrite (list_docx_files_spec fl names base_dir Hv) in Hf.
  apply List.in_map_iff in Hf as (n & <- & Hn).
  apply List.filter_In in Hn as [Hin Hn].
  apply andb_true_iff in Hn as [Hn Hdot].
  apply andb_true_iff in Hn as [Hext Hlock].
  apply negb_true_iff in Hdot, Hlock.
  assert (Hvn : valid_name fl n = true)
    by (apply (proj1 (List.forallb_forall _ _) Hv); exact Hin).
  exists n. rewrite (join_rel fl _ _ Hvn). auto 10.
Qed.

End ExtensionLemmas.

(* ================================================================== *)
(** * Lemmas on the folder path and on the percentage *)

Section FolderPath.

Variable fl : OsPath.flavour.

Lemma snoc_cases (s : string) :
  s = EmptyString \/ exists s' c, s = s' ++ String c EmptyString.
Proof.
  induction s as [|a s [->|(s' & c & ->)]]; [left; reflexivity| |]; right.
  - exists EmptyString, a. reflexivity.
  - exists (String a s'), c. reflexivity.
Qed.

Lemma rstrip_snoc_drop P (s : string) (c : ascii) :
  P c = true -> Str.rstrip P (s ++ String c EmptyString) = Str.rstrip P s.
Proof.
  intros Hc. induction s as [|a s IH]; simpl.
  - rewrite Hc. reflexivity.
  - rewrite IH. reflexivity.
Qed.

Lemma rstrip_snoc_keep P (s : string) (c : ascii) :
  P c = false ->
  Str.rstrip P (s ++ String c EmptyString) = s ++ String c EmptyString.
Proof.
  intros Hc. induction s as [|a s IH]; simpl.
  - rewrite Hc. reflexivity.
  - rewrite IH. destruct s; reflexivity.
Qed.

Lemma last_is_sep_snoc (s : string) (c : ascii) :
  OsPath.last_is_sep fl (s ++ String c EmptyString) = OsPath.is_sep fl c.
Proof.
  assert (H : forall d, Str.endswith (s ++ String c EmptyString)
                          (String d EmptyString) = Ascii.eqb c d).
  { intros d. induction s as [|a s IH].
    - simpl. destruct (Ascii.eqb c d); reflexivity.
    - simpl String.append. rewrite endswith_cons, IH.
      replace (String.eqb (String a (s ++ String c EmptyString))
                 (String d EmptyString)) with false; [reflexivity|].
      simpl. destruct (Ascii.eqb a d); [|reflexivity].
      destruct s; reflexivity. }
  unfold OsPath.last_is_sep, OsPath.is_sep.
  destruct fl; simpl; rewrite !H; [rewrite orb_false_r|]; reflexivity.
Qed.

(** For a folder path that is not empty and does not end with a separator,
    the directory part of the results is the folder path itself. *)
Lemma glob_dirname_plain (base_dir : string) :
  base_dir <> EmptyString ->
  OsPath.last_is_sep fl base_dir = false ->
  glob_dirname fl base_dir = base_dir.
Proof.
  intros Hne Hlast. rewrite glob_dirname_head. unfold dir_prefix.
  apply String.eqb_neq in Hne. rewrite Hne, Hlast. simpl orb. cbv iota.
  destruct (snoc_cases base_dir) as [->|(s & c & ->)]; [discriminate|].
  rewrite last_is_sep_snoc in Hlast.
  unfold head_of.
  replace (String.eqb ((s ++ String c EmptyString) ++
                       String (OsPath.sep fl) EmptyString) EmptyString)
    with false by (destruct s; reflexivity).
  rewrite !forallb_app. simpl Str.forallb at 2. rewrite Hlast.
  rewrite andb_false_r. simpl.
  rewrite (rstrip_snoc_drop _ _ _ (is_sep_sep fl)).
  apply rstrip_snoc_keep. exact Hlast.
Qed.

End FolderPath.

Lemma percent_is_floor_upto_49 : percent_is_floor_upto 49 = true.
Proof. vm_compute. reflexivity. Qed.

(** Up to 49 files the percentage is the floor of [100 * index / total];
    job 29 of 50 is the first where it is not. *)
Lemma percent_floor_below_50 (index total : Z) :
  1 <= index <= total -> total <= 49 ->
  percent index total = 100 * index / total.
Proof.
  intros Hi Ht. pose proof percent_is_floor_upto_49 as H.
  unfold percent_is_floor_upto in H.
  rewrite List.forallb_forall in H.
  assert (Hin : In (Z.to_nat total) (List.seq 1 49)) by (apply List.in_seq; lia).
  specialize (H (Z.to_nat total) Hin).
  rewrite List.forallb_forall in H.
  assert (Hin' : In (Z.to_nat index) (List.seq 1 (Z.to_nat total)))
    by (apply List.in_seq; lia).
  specialize (H (Z.to_nat index) Hin').
  unfold percent_is_floor in H. rewrite !Z2Nat.id in H by lia.
  apply Z.eqb_eq. exact H.
Qed.

(* ================================================================== *)
(** * Properties of the conversion loop *)

Lemma prog_eta {A} (m : prog A) : m = (trace m, outcome m).
Proof. destruct m; reflexivity. Qed.

(** C1 (per-job failure isolation).  Take any list of jobs and a job [p] in
    it, at index [k], that raises during open, export or close with text
    [msg].  The loop ends normally; the trace of job [k] ends with the error
    report, which names the file and carries [msg]; the jobs after [k] run in
    full, each of them is attempted, and their part of the trace is the same
    in every world [w'] that answers like [w] on all other files, in
    particular in one where job [k] succeeds. *)
Theorem failure_isolation (w w' : world) (total start : Z)
  (pre post : list string) (p msg : string) :
  flavour w' = flavour w ->
  (forall q, q <> p ->
     Documents_Open w' q = Documents_Open w q /\
     (forall o, Export_As_Fixed_Format w' q o = Export_As_Fixed_Format w q o) /\
     Doc_Close w' q = Doc_Close w q) ->
  ~ In p post ->
  job_failure w p = Some msg ->
  let k := start + Z.of_nat (List.length pre) in
  let rest := trace (convert_jobs w total (k + 1) post) in
  convert_jobs w total start (pre ++ p :: post) =
    ((trace (convert_jobs w total start pre) ++
      (job_header w total k p ++ job_calls w p ++
       error_report w total k p msg) ++ rest)%list, Ok tt) /\
  convert_jobs w' total start (pre ++ p :: post) =
    ((trace (convert_jobs w' total start pre) ++
      trace (convert_job w' total k p) ++ rest)%list, Ok tt) /\
  (forall q, In q post -> In (DocumentsOpen q (Documents_Open w q)) rest).
Proof.
  intros Hfl Hsame Hnotin Hfail k rest.
  assert (Hrest : convert_jobs w' total (k + 1) post =
                  convert_jobs w total (k + 1) post).
  { apply convert_jobs_same; [exact Hfl|].
    intros q Hq. apply Hsame. intros ->. contradiction. }
  split; [|split].
  - rewrite (prog_eta (convert_jobs w total start (pre ++ p :: post))).
    rewrite convert_jobs_ok, convert_jobs_app, convert_jobs_cons, trace_pair.
    rewrite convert_job_run, trace_pair, Hfail. reflexivity.
  - rewrite (prog_eta (convert_jobs w' total start (pre ++ p :: post))).
    rewrite convert_jobs_ok, convert_jobs_app, convert_jobs_cons, trace_pair.
    fold k. rewrite Hrest. reflexivity.
  - intros q Hq. apply convert_jobs_attempts. exact Hq.
Qed.

Lemma failure_isolation_witness :
  let p := "C:\Users\u\docs\b.docx" in
  let rest :=
    trace (convert_jobs world_b_locked 3 3 ["C:\Users\u\docs\c.docx"]) in
  convert_jobs world_b_locked 3 1
    (["C:\Users\u\docs\a.docx"] ++ p :: ["C:\Users\u\docs\c.docx"]) =
    ((trace (convert_jobs world_b_locked 3 1 ["C:\Users\u\docs\a.docx"]) ++
      (job_header world_b_locked 3 2 p ++ job_calls world_b_locked p ++
       error_report world_b_locked 3 2 p "The file is locked.") ++ rest)%list,
     Ok tt) /\
  convert_jobs world_all_fine 3 1
    (["C:\Users\u\docs\a.docx"] ++ p :: ["C:\Users\u\docs\c.docx"]) =
    ((trace (convert_jobs world_all_fine 3 1 ["C:\Users\u\docs\a.docx"]) ++
      trace (convert_job world_all_fine 3 2 p) ++ rest)%list, Ok tt) /\
  (forall q, In q ["C:\Users\u\docs\c.docx"] ->
     In (DocumentsOpen q (Documents_Open world_b_locked q)) rest).
Proof.
  apply (failure_isolation world_b_locked world_all_fine 3 1
           ["C:\Users\u\docs\a.docx"] ["C:\Users\u\docs\c.docx"]
           "C:\Users\u\docs\b.docx" "The file is locked.").
  - reflexivity.
  - intros q Hq. split; [reflexivity|]. split; [|reflexivity].
    intros o. simpl. destruct (String.eqb_spec q "C:\Users\u\docs\b.docx");
      [contradiction|reflexivity].
  - simpl. intros [H|[]]. discriminate.
  - reflexivity.
Defined.

(** C9 (a failed close after a successful export).  When open and export
    succeed and close raises with text [msg], the job performs the export
    call, which returns, so the PDF exists, and then prints the error
    report: the job is reported as failed although its output was
    produced. *)
Theorem failed_close_after_export (w : world) (total index : Z)
  (docx_path msg : string) :
  Documents_Open w docx_path = None ->
  Export_As_Fixed_Format w docx_path (pdf_path_of w docx_path) = None ->
  Doc_Close w docx_path = Some msg ->
  convert_job w total index docx_path =
  ((job_header w total index docx_path ++
    [ DocumentsOpen docx_path None;
      ExportAsFixedFormat docx_path (pdf_path_of w docx_path) 17 false 0 1 None;
      DocClose docx_path false (Some msg) ] ++
    error_report w total index docx_path msg)%list, Ok tt).
Proof.
  intros Ho He Hc. rewrite convert_job_run.
  unfold job_calls, job_failure. rewrite Ho, He, Hc. reflexivity.
Qed.

Lemma failed_close_after_export_witness :
  convert_job world_b_close_fails 3 2 "C:\Users\u\docs\b.docx" =
  ([ Print (Str.nl ++ "[2/3] Converting file:");
     Print "  DOCX: b.docx";
     Print "  PDF : b.pdf";
     DocumentsOpen "C:\Users\u\docs\b.docx" None;
     ExportAsFixedFormat "C:\Users\u\docs\b.docx" "C:\Users\u\docs\b.pdf"
       17 false 0 1 None;
     DocClose "C:\Users\u\docs\b.docx" false
       (Some "The RPC server is unavailable.");
     Print "  Status: ERROR (see details below) | Progress: 66%";
     Print "  Error while processing b.docx:";
     Print "    The RPC server is unavailable." ], Ok tt).
Proof.
  apply (failed_close_after_export world_b_close_fails 3 2
           "C:\Users\u\docs\b.docx" "The RPC server is unavailable.");
    reflexivity.
Defined.

(** C8 (a failed export leaves the document open).  When a discovered file
    opens and its export raises, the job makes no call to close that
    document, nor does any other part of the run: the trace of the whole run
    holds the successful open, no close of that document, and the call to
    [Quit] comes after the open. *)
Theorem failed_export_leaves_document_open (w : world)
  (base_dir docx_path msg : string) :
  In docx_path (list_docx_files (flavour w) (folder w) base_dir) ->
  engine_obtainable w = true ->
  Documents_Open w docx_path = None ->
  Export_As_Fixed_Format w docx_path (pdf_path_of w docx_path) = Some msg ->
  (forall total index,
     count (is_DocClose_of docx_path)
       (trace (convert_job w total index docx_path)) = 0%nat) /\
  count (is_DocClose_of docx_path)
    (trace (convert_all_docx_in_folder w base_dir)) = 0%nat /\
  exists before after,
    trace (convert_all_docx_in_folder w base_dir) =
      (before ++ Quit :: after)%list /\
    In (DocumentsOpen docx_path None) before /\
    count is_Quit before = 0%nat.
Proof.
  intros Hin Hob Ho He.
  assert (Hne : list_docx_files (flavour w) (folder w) base_dir <> [])
    by (intros E; rewrite E in Hin; contradiction).
  pose proof (convert_all_run w base_dir Hne) as Hrun. rewrite Hob in Hrun.
  destruct (announce_quiet w (list_docx_files (flavour w) (folder w) base_dir))
    as [_ Ha].
  destruct (ensure_pywin32_run w) as [_ Hp].
  assert (HC : forall ev, is_DocClose_of docx_path ev = true ->
                          is_engine_event ev = true)
    by (intros ev; destruct ev; simpl; congruence).
  assert (HQ : forall ev, is_Quit ev = true -> is_engine_event ev = true)
    by (intros ev; destruct ev; simpl; congruence).
  assert (HL : forall ev, is_Quit ev = true -> is_lifecycle_event ev = true)
    by (intros ev; destruct ev; simpl; congruence).
  split; [|split].
  - intros total index. apply (convert_job_no_close w _ _ _ _ msg Ho He).
  - rewrite Hrun, trace_pair, !count_app.
    rewrite (count_quiet _ _ HC Ha), (count_quiet _ _ HC Hp).
    rewrite (convert_jobs_no_close w _ _ msg _ Ho He).
    rewrite summary_run, trace_pair. reflexivity.
  - rewrite Hrun, trace_pair.
    exists (trace (announce w (list_docx_files (flavour w) (folder w) base_dir)) ++
            trace (ensure_pywin32 w) ++
            [ Print (Str.nl ++ "Starting conversion using Microsoft Word...");
              CoInitialize; DispatchEx "Word.Application"; SetVisible false ] ++
            trace (convert_jobs w
                     (Z.of_nat (List.length
                        (list_docx_files (flavour w) (folder w) base_dir))) 1
                     (list_docx_files (flavour w) (folder w) base_dir)))%list,
      (CoUninitialize ::
       trace (summary w (list_docx_files (flavour w) (folder w) base_dir))).
    split; [|split].
    + rewrite <- !List.app_assoc. reflexivity.
    + apply List.in_or_app. right. apply List.in_or_app. right.
      apply List.in_or_app. right.
      rewrite <- Ho. apply convert_jobs_attempts. exact Hin.
    + rewrite !count_app.
      rewrite (count_quiet _ _ HQ Ha), (count_quiet _ _ HQ Hp).
      rewrite (count_jobs w _ _ _ _ HL). reflexivity.
Qed.

Lemma failed_export_leaves_document_open_witness :
  count (is_DocClose_of "C:\Users\u\docs\b.docx")
    (trace (convert_all_docx_in_folder world_b_locked "C:\Users\u\docs"))
  = 0%nat.
Proof.
  apply (failed_export_leaves_document_open world_b_locked "C:\Users\u\docs"
           "C:\Users\u\docs\b.docx" "The file is locked.").
  - vm_compute. auto.
  - reflexivity.
  - reflexivity.
  - reflexivity.
Defined.

(* ================================================================== *)
(** * Properties of the whole run *)

(** C2 (engine life cycle).  The script starts Word before the [try] and
    releases it in the [finally], first [Quit], then [CoUninitialize].  The
    write to [Visible] stands between the start and the [try]: when it
    raises, Word has been started and is never quit.  When [Quit] raises,
    [CoUninitialize] is skipped.  Both runs found files and obtained the
    integration layer, and every conversion would have succeeded. *)
Theorem engine_release_skipped :
  let run h :=
    Run.convert_all_docx_in_folder h world_all_fine "C:\Users\u\docs" in
  (count is_DispatchEx (trace (run host_visible_fails)) = 1%nat /\
   count is_Quit (trace (run host_visible_fails)) = 0%nat /\
   count is_CoUninitialize (trace (run host_visible_fails)) = 0%nat /\
   outcome (run host_visible_fails) =
     Raise (Exception "Call was rejected by callee.")) /\
  (count is_DispatchEx (trace (run host_quit_fails)) = 1%nat /\
   count is_Quit (trace (run host_quit_fails)) = 1%nat /\
   count is_CoUninitialize (trace (run host_quit_fails)) = 0%nat /\
   outcome (run host_quit_fails) =
     Raise (Exception "The RPC server is unavailable.")).
Proof.
  vm_compute. repeat split.
Qed.

(** C6, as stated, read on the code: the status would be other than 0 only
    when the integration layer cannot be obtained.  On a machine where
    pywin32 imports and Word is not installed, [DispatchEx] raises outside
    any handler and the run ends with a traceback and the status 1. *)
Lemma word_missing_exits_nonzero :
  engine_obtainable world_all_fine = true /\
  outcome (Run.main host_no_word world_all_fine) =
    Raise (Exception "Invalid class string") /\
  exit_status (Run.main host_no_word world_all_fine) = 1 /\
  ~ (exit_status (Run.main host_no_word world_all_fine) <> 0 <->
     engine_obtainable world_all_fine = false).
Proof.
  split; [reflexivity|]. split; [vm_compute; reflexivity|].
  split; [vm_compute; reflexivity|].
  intros [H _].
  assert (E : exit_status (Run.main host_no_word world_all_fine) = 1)
    by (vm_compute; reflexivity).
  rewrite E in H. discriminate H. discriminate.
Qed.

(** C6, amended.  The process ends with a status other than 0 exactly when
    [input] raises, or files were found and either the integration layer
    cannot be obtained or one of the five unguarded COM calls raises.  The
    status is then 1.  How the conversions end plays no part. *)
Theorem exit_status_tiers (h : host) (w : world) :
  (exit_status (Run.main h w) <> 0 <->
   input_returns h = false \/
   (discovered w <> [] /\
    (engine_obtainable w = false \/ com_returns h = false))) /\
  (exit_status (Run.main h w) = 0 \/ exit_status (Run.main h w) = 1).
Proof.
  assert (Hs : exit_status (Run.main h w) =
               exit_status (Run.convert_all_docx_in_folder h w (working_dir w)))
    by (rewrite run_main; reflexivity).
  rewrite Hs. clear Hs. unfold discovered, input_returns.
  pose proof (com_returns_failure h) as [Hc1 Hc2].
  destruct (list_docx_files (flavour w) (folder w) (working_dir w))
    as [|first others] eqn:E.
  - rewrite (run_convert_all_empty h w _ E). unfold exit_status.
    destruct (input_answer h); simpl.
    + split; [|right; reflexivity]. split; [auto|discriminate].
    + split; [|left; reflexivity].
      split; [congruence|]. intros [H|[H _]]; congruence.
  - assert (Hne : list_docx_files (flavour w) (folder w) (working_dir w) <> [])
      by (rewrite E; discriminate).
    rewrite (run_convert_all h w _ Hne). rewrite E. clear E Hne.
    assert (Hfo : first :: others <> []) by discriminate.
    unfold exit_status.
    destruct (engine_obtainable w), (session_failure h), (input_answer h),
      (com_returns h);
      try (specialize (Hc1 eq_refl); discriminate Hc1);
      try (specialize (Hc2 eq_refl); discriminate Hc2);
      simpl;
      (split; [split; [intros _|intros _; discriminate]|right; reflexivity]) ||
      (split; [split; [congruence|]|left; reflexivity]);
      auto.
    intros [H|[_ [H|H]]]; discriminate H.
Qed.

(** C5, as stated, read on the code: if the closing report carried the
    numbers of succeeded and failed jobs, they could be read off it.  They
    cannot: with the same two files the report is the same whether both
    jobs succeed or one fails. *)
Lemma summary_reports_no_counts :
  ~ exists decode : list event -> nat * nat,
      forall (w : world) (docx_files : list string),
        decode (trace (summary w docx_files)) =
        (succeeded w docx_files, failed w docx_files).
Proof.
  intros [decode H].
  pose proof (H world_all_fine
                ["C:\Users\u\docs\a.docx"; "C:\Users\u\docs\b.docx"]) as H1.
  pose proof (H world_b_locked
                ["C:\Users\u\docs\a.docx"; "C:\Users\u\docs\b.docx"]) as H2.
  rewrite summary_run, trace_pair in H1, H2.
  change (flavour world_b_locked) with (flavour world_all_fine) in H2.
  change (pdf_path_of world_b_locked) with (pdf_path_of world_all_fine) in H2.
  rewrite H1 in H2. vm_compute in H2. discriminate.
Qed.

(** C5, amended.  A run that found files and obtained the integration layer
    ends, after [Quit] and [CoUninitialize], with a closing report of three
    events: the line [All conversions finished.], then for a batch of one
    file the line [Created PDF file: <name>.pdf] and for any other batch the
    line [PDF files were created next to each original DOCX file.], then the
    prompt.  The report is made of the list of files alone; no answer of
    Word and no count enters it. *)
Theorem summary_depends_on_files_only (w : world) (base_dir : string) :
  let docx_files := list_docx_files (flavour w) (folder w) base_dir in
  docx_files <> [] ->
  engine_obtainable w = true ->
  exists before,
    trace (convert_all_docx_in_folder w base_dir) =
    (before ++
     [ Quit; CoUninitialize;
       Print (Str.nl ++ "All conversions finished.");
       Print (if Z.of_nat (List.length docx_files) =? 1
              then "Created PDF file: "
                     ++ OsPath.basename (flavour w)
                          (fst (OsPath.splitext (flavour w)
                                  (List.hd EmptyString docx_files)) ++ ".pdf")
              else "PDF files were created next to each original DOCX file.");
       Input (Str.nl ++ "Press Enter to exit...") ])%list.
Proof.
  intros docx_files Hne Hob.
  rewrite (convert_all_run w base_dir Hne), Hob, trace_pair.
  fold docx_files. rewrite summary_run, trace_pair.
  exists (trace (announce w docx_files) ++ trace (ensure_pywin32 w) ++
          [ Print (Str.nl ++ "Starting conversion using Microsoft Word...");
            CoInitialize; DispatchEx "Word.Application"; SetVisible false ] ++
          trace (convert_jobs w (Z.of_nat (List.length docx_files)) 1
                   docx_files))%list.
  rewrite <- !List.app_assoc. reflexivity.
Qed.

Lemma summary_depends_on_files_only_witness :
  exists before,
    trace (convert_all_docx_in_folder world_b_locked "C:\Users\u\docs") =
    (before ++
     [ Quit; CoUninitialize;
       Print (Str.nl ++ "All conversions finished.");
       Print "PDF files were created next to each original DOCX file.";
       Input (Str.nl ++ "Press Enter to exit...") ])%list.
Proof.
  apply (summary_depends_on_files_only world_b_locked "C:\Users\u\docs").
  - vm_compute. discriminate.
  - reflexivity.
Defined.

(** C4, at job 29 of 50.  The script prints 57 where the floor of
    29/50 x 100 is 58: the quotient 29/50 is rounded to a double below 0.58
    and its product with 100 to a double below 58, which [int] truncates.
    Both report lines of the job carry that number. *)
Theorem percent_job_29_of_50 :
  percent 29 50 = 57 /\
  100 * 29 / 50 = 58 /\
  ok_report 50 29 = [Print "  Status: OK   |   Progress: 57%"] /\
  (forall w p msg,
     List.hd (Print "") (error_report w 50 29 p msg) =
     Print "  Status: ERROR (see details below) | Progress: 57%").
Proof.
  repeat split.
Qed.

(* ================================================================== *)
(** * Properties of discovery *)

(** C3 (discovery).  The docstring of [list_docx_files] promises all the
    [.docx] files of the folder except the temporary files, whose names
    begin with the lock-file marker.  A folder with [a.docx], [.notes.docx],
    a lock file and a text file holds two names that carry the extension
    and are no lock files; discovery returns one path and leaves the dot
    file out. *)
Theorem discovery_skips_dot_docx :
  let names := ["a.docx"; ".notes.docx"; "~$a.docx"; "notes.txt"] in
  List.forallb (valid_name OsPath.posixpath) names = true /\
  List.filter
    (fun n => has_docx_extension OsPath.posixpath n && negb (is_lock_file n))
    names = ["a.docx"; ".notes.docx"] /\
  list_docx_files OsPath.posixpath names "/home/u/docs" =
    ["/home/u/docs/a.docx"] /\
  list_docx_files OsPath.posixpath names "/home/u/docs" <>
    List.map
      (OsPath.join OsPath.posixpath
         (glob_dirname OsPath.posixpath "/home/u/docs"))
      (List.filter
         (fun n => has_docx_extension OsPath.posixpath n &&
                   negb (is_lock_file n))
         names).
Proof.
  repeat split. vm_compute. discriminate.
Qed.

(** C7 (output path).  For every discovered file the path splits into a root
    and its extension, the extension reads [.docx] under the case rule of
    the platform, the output path is the root followed by [.pdf], and both
    paths have the same directory part. *)
Theorem output_path_derivation (w : world) (base_dir docx_path : string) :
  List.forallb (valid_name (flavour w)) (folder w) = true ->
  In docx_path (list_docx_files (flavour w) (folder w) base_dir) ->
  exists root ext,
    docx_path = root ++ ext /\
    OsPath.splitext (flavour w) docx_path = (root, ext) /\
    OsPath.normcase (flavour w) ext = ".docx" /\
    pdf_path_of w docx_path = root ++ ".pdf" /\
    fst (OsPath.split (flavour w) (pdf_path_of w docx_path)) =
    fst (OsPath.split (flavour w) docx_path).
Proof.
  intros Hv Hin.
  destruct (discovered_inv (flavour w) _ _ _ Hv Hin)
    as (n & -> & _ & Hvn & Hext & _ & Hdot).
  destruct (docx_name_shape (flavour w) n Hvn Hext Hdot)
    as (x & stem & e & -> & Hx & Hnorm & Hstem & Hsep & Hnodot).
  set (pre := dir_prefix (flavour w) (glob_dirname (flavour w) base_dir)).
  assert (Hpre : dirlike (flavour w) pre) by apply dir_prefix_dirlike.
  assert (Hsplit : OsPath.splitext (flavour w)
                     (pre ++ String x stem ++ String "." e) =
                   (pre ++ String x stem, String "." e))
    by (apply splitext_dirlike; assumption).
  exists (pre ++ String x stem), (String "." e).
  split; [symmetry; apply app_assoc|].
  split; [exact Hsplit|]. split; [exact Hnorm|].
  unfold pdf_path_of. rewrite Hsplit. cbn [fst].
  split; [reflexivity|].
  assert (H1 : Str.forallb (fun c => negb (OsPath.is_sep (flavour w) c))
                 (String x stem ++ ".pdf") = true)
    by (rewrite forallb_app, Hstem; destruct (flavour w); reflexivity).
  assert (H2 : Str.forallb (fun c => negb (OsPath.is_sep (flavour w) c))
                 (String x stem ++ String "." e) = true)
    by (apply valid_name_inv; exact Hvn).
  rewrite app_assoc.
  rewrite (split_dirlike (flavour w) pre _ Hpre H1).
  rewrite (split_dirlike (flavour w) pre _ Hpre H2).
  reflexivity.
Qed.

Lemma output_path_derivation_witness :
  exists root ext,
    "C:\Users\u\docs\b.docx" = root ++ ext /\
    OsPath.splitext OsPath.ntpath "C:\Users\u\docs\b.docx" = (root, ext) /\
    OsPath.normcase OsPath.ntpath ext = ".docx" /\
    pdf_path_of world_all_fine "C:\Users\u\docs\b.docx" = root ++ ".pdf" /\
    fst (OsPath.split OsPath.ntpath
           (pdf_path_of world_all_fine "C:\Users\u\docs\b.docx")) =
    fst (OsPath.split OsPath.ntpath "C:\Users\u\docs\b.docx").
Proof.
  apply (output_path_derivation world_all_fine "C:\Users\u\docs"
           "C:\Users\u\docs\b.docx").
  - reflexivity.
  - vm_compute. auto.
Defined.

(** C10 (dot files).  Discovery returns no file whose base name begins with
    a dot, and a name of the folder that begins with a dot is never among
    the results.  The name [.notes.docx] carries the extension and is no
    lock file, yet a folder that holds only it yields nothing. *)
Theorem discovery_excludes_dot_files (fl : OsPath.flavour)
  (names : list string) (base_dir : string) :
  List.forallb (valid_name fl) names = true ->
  (forall f, In f (list_docx_files fl names base_dir) ->
     is_dot_file (OsPath.basename fl f) = false) /\
  (forall n, In n names -> is_dot_file n = true ->
     ~ In (OsPath.join fl (glob_dirname fl base_dir) n)
          (list_docx_files fl names base_dir)) /\
  has_docx_extension fl ".notes.docx" = true /\
  is_lock_file ".notes.docx" = false /\
  list_docx_files fl [".notes.docx"] base_dir = [].
Proof.
  intros Hv.
  assert (Hbase : forall f, In f (list_docx_files fl names base_dir) ->
                            is_dot_file (OsPath.basename fl f) = false).
  { intros f Hf.
    destruct (discovered_inv fl _ _ _ Hv Hf) as (n & -> & _ & Hvn & _ & _ & Hd).
    rewrite basename_dirlike;
      [exact Hd|apply dir_prefix_dirlike|apply (valid_name_inv fl n Hvn)]. }
  split; [exact Hbase|]. split; [|split; [|split]].
  - intros n Hn Hd Hin. apply Hbase in Hin.
    assert (Hvn : valid_name fl n = true)
      by (apply (proj1 (List.forallb_forall _ _) Hv); exact Hn).
    rewrite (join_rel fl _ _ Hvn) in Hin.
    rewrite basename_dirlike in Hin;
      [congruence|apply dir_prefix_dirlike|apply (valid_name_inv fl n Hvn)].
  - destruct fl; reflexivity.
  - reflexivity.
  - rewrite list_docx_files_spec by (destruct fl; reflexivity).
    destruct fl; reflexivity.
Qed.

Lemma discovery_excludes_dot_files_witness :
  ~ In (OsPath.join OsPath.ntpath
          (glob_dirname OsPath.ntpath "C:\Users\u\docs") ".notes.docx")
       (list_docx_files OsPath.ntpath (folder world_all_fine) "C:\Users\u\docs").
Proof.
  apply (discovery_excludes_dot_files OsPath.ntpath (folder world_all_fine)
           "C:\Users\u\docs" eq_refl).
  - vm_compute. auto 10.
  - reflexivity.
Defined.

(* ================================================================== *)
(** * Lemmas on the calls of a run *)

Section Projections.

Context {X : Type}.
Variable f : event -> list X.

Lemma flat_map_quiet (Q : event -> bool) (tr : list event) :
  (forall ev, Q ev = true -> f ev = []) ->
  List.forallb Q tr = true -> List.flat_map f tr = [].
Proof.
  intros HQ. induction tr as [|ev tr IH]; simpl; intros H; [reflexivity|].
  apply andb_true_iff in H as [Hev Htr].
  rewrite (HQ ev Hev), (IH Htr). reflexivity.
Qed.

Variable w : world.

(** A projection that ignores the prints sees of the loop the calls of the
    jobs only. *)
Lemma convert_jobs_flat_map (total : Z) (docx_files : list string) :
  (forall s, f (Print s) = []) ->
  forall start,
    List.flat_map f (trace (convert_jobs w total start docx_files)) =
    List.flat_map (fun p => List.flat_map f (job_calls w p)) docx_files.
Proof.
  intros Hf. induction docx_files as [|p rest IH]; intros start; [reflexivity|].
  rewrite convert_jobs_cons, trace_pair, List.flat_map_app, IH.
  rewrite convert_job_run, trace_pair, !List.flat_map_app.
  simpl List.flat_map at 3. f_equal.
  assert (Hh : List.flat_map f (job_header w total start p) = [])
    by (unfold job_header; simpl; rewrite !Hf; reflexivity).
  assert (Hr : List.flat_map f
                 match job_failure w p with
                 | Some msg => error_report w total start p msg
                 | None => ok_report total start
                 end = []).
  { destruct (job_failure w p); unfold error_report, ok_report; simpl;
      rewrite !Hf; reflexivity. }
  rewrite Hh, Hr, List.app_nil_r. reflexivity.
Qed.

(** A projection that ignores everything but the document calls sees of a
    whole run the calls of the jobs of the discovered files, and nothing
    when the integration layer cannot be obtained. *)
Lemma run_flat_map (base_dir : string) :
  (forall ev, is_document_event ev = false -> f ev = []) ->
  List.flat_map f (trace (convert_all_docx_in_folder w base_dir)) =
  if engine_obtainable w
  then List.flat_map (fun p => List.flat_map f (job_calls w p))
         (list_docx_files (flavour w) (folder w) base_dir)
  else [].
Proof.
  intros Hf.
  assert (Hq : forall tr,
             List.forallb (fun ev => negb (is_engine_event ev)) tr = true ->
             List.flat_map f tr = []).
  { intros tr.
    apply (flat_map_quiet (fun ev => negb (is_engine_event ev))).
    intros ev Hev. apply Hf. destruct ev; simpl in *; congruence. }
  assert (Hd : forall tr,
             List.forallb (fun ev => negb (is_document_event ev)) tr = true ->
             List.flat_map f tr = []).
  { intros tr.
    apply (flat_map_quiet (fun ev => negb (is_document_event ev))).
    intros ev Hev. apply Hf. apply negb_true_iff. exact Hev. }
  destruct (list_docx_files (flavour w) (folder w) base_dir)
    as [|first others] eqn:E.
  - rewrite (convert_all_empty w base_dir E), trace_pair.
    rewrite Hd by reflexivity. destruct (engine_obtainable w); reflexivity.
  - assert (Hne : list_docx_files (flavour w) (folder w) base_dir <> [])
      by (rewrite E; discriminate).
    rewrite (convert_all_run w base_dir Hne). rewrite E.
    destruct (announce_quiet w (first :: others)) as [_ Ha].
    destruct (ensure_pywin32_run w) as [_ He].
    destruct (engine_obtainable w); rewrite trace_pair, !List.flat_map_app.
    + rewrite (Hq _ Ha), (Hq _ He).
      rewrite convert_jobs_flat_map by (intros s; apply Hf; reflexivity).
      rewrite summary_run, trace_pair.
      rewrite !Hd by reflexivity. rewrite List.app_nil_r. reflexivity.
    + rewrite (Hq _ Ha), (Hq _ He). reflexivity.
Qed.

End Projections.

Lemma flat_map_singleton {X} (l : list X) :
  List.flat_map (fun x => [x]) l = l.
Proof. induction l as [|x l IH]; simpl; [|rewrite IH]; reflexivity. Qed.

Lemma flat_map_if {X Y} (c : X -> bool) (g : X -> Y) (l : list X) :
  List.flat_map (fun x => if c x then [g x] else []) l =
  List.map g (List.filter c l).
Proof.
  induction l as [|x l IH]; simpl; [reflexivity|].
  destruct (c x); simpl; rewrite IH; reflexivity.
Qed.

(* ================================================================== *)
(** * Further properties of the calls on documents *)

Lemma job_calls_opened (w : world) (p : string) :
  opened (job_calls w p) = [p].
Proof.
  unfold opened, job_calls. destruct (Documents_Open w p); [reflexivity|].
  destruct (Export_As_Fixed_Format w p (pdf_path_of w p)); reflexivity.
Qed.

Lemma in_document_calls (ev : event) (tr : list event) :
  In ev tr -> is_document_event ev = true -> In ev (document_calls tr).
Proof.
  intros Hin Hd. unfold document_calls. apply List.in_flat_map.
  exists ev. split; [exact Hin|]. rewrite Hd. left. reflexivity.
Qed.

(** The document calls of a run, in order, are those of the jobs of the
    discovered files. *)
Lemma run_document_calls (w : world) (base_dir : string) :
  document_calls (trace (convert_all_docx_in_folder w base_dir)) =
  if engine_obtainable w
  then List.flat_map (job_calls w)
         (list_docx_files (flavour w) (folder w) base_dir)
  else [].
Proof.
  unfold document_calls. rewrite run_flat_map.
  - destruct (engine_obtainable w); [|reflexivity].
    apply List.flat_map_ext. intros p. unfold job_calls.
    destruct (Documents_Open w p); [reflexivity|].
    destruct (Export_As_Fixed_Format w p (pdf_path_of w p)); reflexivity.
  - intros ev Hev. rewrite Hev. reflexivity.
Qed.

(** X1.  The run opens every discovered file exactly once, in the order of
    discovery, and opens nothing else; when the integration layer cannot be
    obtained it opens nothing. *)
Theorem run_opens_discovered_files_in_order (w : world) (base_dir : string) :
  opened (trace (convert_all_docx_in_folder w base_dir)) =
  if engine_obtainable w
  then list_docx_files (flavour w) (folder w) base_dir
  else [].
Proof.
  unfold opened. rewrite run_flat_map.
  - destruct (engine_obtainable w); [|reflexivity].
    rewrite <- (flat_map_singleton
                  (list_docx_files (flavour w) (folder w) base_dir)) at 2.
    apply List.flat_map_ext. intros p. apply job_calls_opened.
  - intros ev Hev. destruct ev; try reflexivity; discriminate.
Qed.

(** X2.  The export is attempted on exactly the files that Word opened, and
    the close on exactly the files whose export returned, each once and in
    the order of discovery: no export without a successful open, no close
    without a successful export. *)
Theorem run_export_and_close_attempts (w : world) (base_dir : string) :
  let docx_files := list_docx_files (flavour w) (folder w) base_dir in
  let tr := trace (convert_all_docx_in_folder w base_dir) in
  export_attempts tr =
    (if engine_obtainable w then List.filter (opens_ok w) docx_files else []) /\
  close_attempts tr =
    (if engine_obtainable w then List.filter (exports_ok w) docx_files else []).
Proof.
  intros docx_files tr. unfold tr, export_attempts, close_attempts. split.
  - rewrite run_flat_map.
    + destruct (engine_obtainable w); [|reflexivity].
      rewrite <- (List.map_id (List.filter (opens_ok w) docx_files)).
      rewrite <- flat_map_if. apply List.flat_map_ext. intros p.
      unfold job_calls, opens_ok. destruct (Documents_Open w p); [reflexivity|].
      destruct (Export_As_Fixed_Format w p (pdf_path_of w p)); reflexivity.
    + intros ev Hev. destruct ev; try reflexivity; discriminate.
  - rewrite run_flat_map.
    + destruct (engine_obtainable w); [|reflexivity].
      rewrite <- (List.map_id (List.filter (exports_ok w) docx_files)).
      rewrite <- flat_map_if. apply List.flat_map_ext. intros p.
      unfold job_calls, exports_ok, opens_ok.
      destruct (Documents_Open w p); [reflexivity|].
      destruct (Export_As_Fixed_Format w p (pdf_path_of w p)); reflexivity.
    + intros ev Hev. destruct ev; try reflexivity; discriminate.
Qed.

(** X3.  The output files of a run are the output paths of the discovered
    files that Word opened and exported, in the order of discovery; how the
    close ends plays no part. *)
Theorem run_produced_files (w : world) (base_dir : string) :
  produced (trace (convert_all_docx_in_folder w base_dir)) =
  if engine_obtainable w
  then List.map (pdf_path_of w)
         (List.filter (exports_ok w)
            (list_docx_files (flavour w) (folder w) base_dir))
  else [].
Proof.
  unfold produced. rewrite run_flat_map.
  - destruct (engine_obtainable w); [|reflexivity].
    rewrite <- flat_map_if. apply List.flat_map_ext. intros p.
    unfold job_calls, exports_ok, opens_ok.
    destruct (Documents_Open w p); [reflexivity|].
    destruct (Export_As_Fixed_Format w p (pdf_path_of w p)); reflexivity.
  - intros ev Hev. destruct ev; try reflexivity; discriminate.
Qed.

(** X4.  Every call on a document in a run concerns a discovered file.
    Every export writes to the output path of its document, with format 17
    (PDF), without opening the result, optimised for print (0) and with
    heading bookmarks (1); every close discards changes. *)
Theorem run_calls_are_fixed (w : world) (base_dir : string) (ev : event) :
  In ev (trace (convert_all_docx_in_folder w base_dir)) ->
  let docx_files := list_docx_files (flavour w) (folder w) base_dir in
  match ev with
  | DocumentsOpen d _ => In d docx_files
  | ExportAsFixedFormat d out format open_after optimize bookmarks _ =>
      In d docx_files /\ out = pdf_path_of w d /\ format = 17 /\
      open_after = false /\ optimize = 0 /\ bookmarks = 1
  | DocClose d save _ => In d docx_files /\ save = false
  | _ => True
  end.
Proof.
  intros Hin docx_files.
  destruct (is_document_event ev) eqn:Hd;
    [|destruct ev; try exact I; discriminate].
  pose proof (in_document_calls ev _ Hin Hd) as Hc.
  rewrite run_document_calls in Hc.
  destruct (engine_obtainable w); [|contradiction].
  apply List.in_flat_map in Hc as (p & Hp & Hev).
  unfold job_calls in Hev.
  destruct Hev as [<-|Hev]; [exact Hp|].
  destruct (Documents_Open w p); [contradiction|].
  destruct Hev as [<-|Hev]; [repeat split; auto|].
  destruct (Export_As_Fixed_Format w p (pdf_path_of w p)); [contradiction|].
  destruct Hev as [<-|[]]. split; [exact Hp|reflexivity].
Qed.

Lemma run_calls_are_fixed_witness :
  In "C:\Users\u\docs\b.docx"
     (list_docx_files (flavour world_b_locked) (folder world_b_locked)
        "C:\Users\u\docs") /\
  "C:\Users\u\docs\b.pdf" = pdf_path_of world_b_locked "C:\Users\u\docs\b.docx" /\
  17 = 17 /\ false = false /\ 0 = 0 /\ 1 = 1.
Proof.
  apply (run_calls_are_fixed world_b_locked "C:\Users\u\docs"
           (ExportAsFixedFormat "C:\Users\u\docs\b.docx" "C:\Users\u\docs\b.pdf"
              17 false 0 1 (Some "The file is locked."))).
  vm_compute. auto 40.
Defined.

(** X5.  In a folder of well-formed names the run never calls Word on a
    lock file or on a dot file: the base name of every file it opens begins
    neither with the lock-file marker nor with a dot; and when the folder
    path holds none of the characters [glob] reads as a pattern, that base
    name is a name of the folder. *)
Theorem run_never_opens_lock_files (w : world) (base_dir d : string)
  (r : option string) :
  List.forallb (valid_name (flavour w)) (folder w) = true ->
  In (DocumentsOpen d r) (trace (convert_all_docx_in_folder w base_dir)) ->
  is_lock_file (OsPath.basename (flavour w) d) = false /\
  is_dot_file (OsPath.basename (flavour w) d) = false /\
  (Glob.has_magic base_dir = false ->
   In (OsPath.basename (flavour w) d) (folder w)).
Proof.
  intros Hv Hin.
  pose proof (in_document_calls _ _ Hin eq_refl) as Hc.
  rewrite run_document_calls in Hc.
  destruct (engine_obtainable w); [|contradiction].
  apply List.in_flat_map in Hc as (p & Hp & Hev).
  assert (d = p).
  { unfold job_calls in Hev. destruct Hev as [E|Hev]; [congruence|].
    destruct (Documents_Open w p); [contradiction|].
    destruct Hev as [E|Hev]; [discriminate|].
    destruct (Export_As_Fixed_Format w p (pdf_path_of w p)); [contradiction|].
    destruct Hev as [E|[]]. discriminate. }
  subst p.
  destruct (discovered_inv (flavour w) _ _ _ Hv Hp)
    as (n & -> & Hn & Hvn & _ & Hlock & Hdot).
  rewrite basename_dirlike;
    [auto|apply dir_prefix_dirlike|apply (valid_name_inv _ n Hvn)].
Qed.

Lemma run_never_opens_lock_files_witness :
  is_lock_file (OsPath.basename OsPath.ntpath "C:\Users\u\docs\b.docx") = false /\
  is_dot_file (OsPath.basename OsPath.ntpath "C:\Users\u\docs\b.docx") = false /\
  (Glob.has_magic "C:\Users\u\docs" = false ->
   In (OsPath.basename OsPath.ntpath "C:\Users\u\docs\b.docx")
      (folder world_b_locked)).
Proof.
  apply (run_never_opens_lock_files world_b_locked "C:\Users\u\docs"
           "C:\Users\u\docs\b.docx" None).
  - reflexivity.
  - vm_compute. auto 40.
Defined.

(* ================================================================== *)
(** * Further properties of the console and of the set-up *)

Lemma for_each_print_run (g : string -> string) (xs : list string) :
  for_each xs (fun x => print (g x)) =
  (List.map (fun x => Print (g x)) xs, Ok tt).
Proof.
  induction xs as [|x xs IH]; [reflexivity|].
  simpl for_each. rewrite IH. reflexivity.
Qed.

(** What [announce] prints. *)
Lemma announce_run (w : world) (docx_files : list string) :
  announce w docx_files =
  ((Print (Str.nl ++ "Files to be converted:") ::
    if Z.of_nat (List.length docx_files) =? 1
    then [ Print ("  1 file found: "
                    ++ OsPath.basename (flavour w)
                         (List.hd EmptyString docx_files)) ]
    else
      List.map (fun f => Print ("  - " ++ OsPath.basename (flavour w) f))
        docx_files ++
      [ Print (Str.nl ++ "Total files: "
                 ++ Str.of_Z (Z.of_nat (List.length docx_files))) ])%list,
   Ok tt).
Proof.
  unfold announce.
  destruct (Z.of_nat (List.length docx_files) =? 1); [reflexivity|].
  rewrite for_each_print_run. reflexivity.
Qed.

Lemma announce_prints (w : world) (docx_files : list string) :
  List.forallb is_Print (trace (announce w docx_files)) = true.
Proof.
  rewrite announce_run, trace_pair.
  destruct (Z.of_nat (List.length docx_files) =? 1); [reflexivity|].
  simpl. rewrite List.forallb_app. simpl. rewrite andb_true_r.
  induction docx_files as [|f fs IH]; [reflexivity|exact IH].
Qed.

Lemma convert_jobs_events (w : world) (total : Z) (docx_files : list string) :
  forall start,
    List.forallb (fun ev => is_Print ev || is_document_event ev)
      (trace (convert_jobs w total start docx_files)) = true.
Proof.
  induction docx_files as [|p rest IH]; intros start; [reflexivity|].
  rewrite convert_jobs_cons, trace_pair, List.forallb_app, IH, andb_true_r.
  rewrite convert_job_run, trace_pair. unfold job_calls, job_failure.
  destruct (Documents_Open w p); [reflexivity|].
  destruct (Export_As_Fixed_Format w p (pdf_path_of w p)); [reflexivity|].
  destruct (Doc_Close w p); reflexivity.
Qed.

Lemma main_run (w : world) :
  main w =
  ((trace (print_intro w (working_dir w)) ++
    trace (convert_all_docx_in_folder w (working_dir w)))%list,
   outcome (convert_all_docx_in_folder w (working_dir w))).
Proof.
  unfold main, Run.main. fold (working_dir w).
  fold (convert_all_docx_in_folder w (working_dir w)).
  rewrite (bind_ok _ _ tt) by apply print_intro_run. reflexivity.
Qed.

(** How often an event of the console or of the set-up other than a print
    occurs in a run. *)
Lemma count_run_setup P (w : world) (base_dir : string) :
  (forall ev, P ev = true -> is_Print ev = false /\ is_engine_event ev = false) ->
  count P (trace (convert_all_docx_in_folder w base_dir)) =
  match list_docx_files (flavour w) (folder w) base_dir with
  | [] => count P [Input (Str.nl ++ "Press Enter to exit...")]
  | _ :: _ =>
      (count P (trace (ensure_pywin32 w)) +
       if engine_obtainable w
       then count P [Input (Str.nl ++ "Press Enter to exit...")]
       else 0)%nat
  end.
Proof.
  intros HP.
  assert (HPr : forall s, P (Print s) = false).
  { intros s. destruct (P (Print s)) eqn:E; [|reflexivity].
    apply HP in E as [E _]. discriminate. }
  assert (HE : forall ev, is_engine_event ev = true -> P ev = false).
  { intros ev Hev. destruct (P ev) eqn:E; [|reflexivity].
    apply HP in E as [_ E]. congruence. }
  assert (HQ : forall ev, is_Print ev || is_document_event ev = true ->
                          P ev = false).
  { intros ev Hev. destruct ev; try discriminate; try apply HPr;
      apply HE; reflexivity. }
  destruct (list_docx_files (flavour w) (folder w) base_dir)
    as [|first others] eqn:E.
  - rewrite (convert_all_empty w base_dir E), trace_pair.
    unfold count. simpl. rewrite !HPr. reflexivity.
  - assert (Hne : list_docx_files (flavour w) (folder w) base_dir <> [])
      by (rewrite E; discriminate).
    rewrite (convert_all_run w base_dir Hne), E.
    assert (Ha : count P (trace (announce w (first :: others))) = 0%nat).
    { apply (count_none P is_Print); [|apply announce_prints].
      intros ev Hev. destruct ev; try discriminate. apply HPr. }
    destruct (engine_obtainable w); rewrite trace_pair, !count_app, Ha.
    + rewrite (count_none P _ _ HQ (convert_jobs_events w _ _ 1)).
      rewrite summary_run, trace_pair.
      unfold count. simpl. rewrite !HPr.
      rewrite (HE CoInitialize eq_refl), (HE (DispatchEx _) eq_refl),
        (HE (SetVisible _) eq_refl), (HE Quit eq_refl),
        (HE CoUninitialize eq_refl).
      simpl. lia.
    + lia.
Qed.

(** The dependency check by cases of the five answers it may ask for. *)
Lemma ensure_pywin32_console (w : world) :
  count is_Input (trace (ensure_pywin32 w)) =
    (if engine_obtainable w then 0 else 1)%nat /\
  count is_PipInstall (trace (ensure_pywin32 w)) =
    (if imports_ok (import_module w) then 0 else 1)%nat /\
  (engine_obtainable w = false ->
   List.last (trace (ensure_pywin32 w)) Quit =
     Input (Str.nl ++ "Press Enter to exit...") /\
   trace (ensure_pywin32 w) <> [] /\
   exists msg, fatal_message w = Some msg /\
     In (Print ("Error details: " ++ msg)) (trace (ensure_pywin32 w))) /\
  (imports_ok (import_module w) = true ->
   ensure_pywin32 w =
   ([Import "pythoncom" None; Import "win32com.client" None], Ok tt)).
Proof.
  unfold ensure_pywin32, Run.ensure_pywin32, engine_obtainable, imports_ok,
    fatal_message.
  destruct (import_module w "pythoncom"),
    (import_module w "win32com.client"),
    (pip_install w),
    (import_module_again w "pythoncom"),
    (import_module_again w "win32com.client");
    (split; [vm_compute; reflexivity|]);
    (split; [vm_compute; reflexivity|]);
    (split;
     [intros H;
      first [discriminate H
            |split; [vm_compute; reflexivity|];
             split; [vm_compute; discriminate|];
             eexists; split; [reflexivity|vm_compute; auto 20]]
     |intros H; first [discriminate H|vm_compute; reflexivity]]).
Qed.

Lemma last_app_nonempty {X} (a b : list X) (d : X) :
  b <> [] -> List.last (a ++ b)%list d = List.last b d.
Proof.
  intros Hb. induction a as [|x a IH]; [reflexivity|].
  simpl. rewrite IH. destruct (a ++ b)%list eqn:E; [|reflexivity].
  apply List.app_eq_nil in E as [_ E]. contradiction.
Qed.

Lemma count_session_events P (h : host) (body : list event) :
  (forall ev, is_lifecycle_event ev = true -> P ev = false) ->
  count P (session_events h body) =
  if session_starts h then count P body else 0%nat.
Proof.
  intros HP. unfold session_events, session_starts.
  destruct (CoInitialize_answer h), (DispatchEx_answer h), (Visible_answer h),
    (Quit_answer h);
    repeat (rewrite (count_app P [_]) || rewrite (count_app P body));
    unfold count; simpl;
    rewrite ?(HP CoInitialize eq_refl), ?(HP (DispatchEx _) eq_refl),
      ?(HP (SetVisible _) eq_refl), ?(HP Quit eq_refl),
      ?(HP CoUninitialize eq_refl); simpl; try reflexivity.
  - rewrite List.filter_app, List.length_app. simpl.
    rewrite ?(HP Quit eq_refl). simpl. lia.
  - rewrite List.filter_app, List.length_app. simpl.
    rewrite ?(HP Quit eq_refl), ?(HP CoUninitialize eq_refl). simpl. lia.
Qed.

(** X6.  A run asks for the Enter key at most once, and then as its last
    event.  It asks when no file is found, when the integration layer cannot
    be obtained and when the five unguarded COM calls return; a run in
    which one of them raises ends without the prompt. *)
Theorem run_prompts_once_at_the_end (h : host) (w : world) :
  let tr := trace (Run.main h w) in
  (discovered w = [] \/ engine_obtainable w = false \/ com_returns h = true ->
   count is_Input tr = 1%nat /\
   List.last tr Quit = Input (Str.nl ++ "Press Enter to exit...")) /\
  (discovered w <> [] -> engine_obtainable w = true -> com_returns h = false ->
   count is_Input tr = 0%nat).
Proof.
  intros tr. unfold tr, discovered. clear tr.
  rewrite run_main, trace_pair.
  destruct (ensure_pywin32_console w) as (HI & _ & HF & _).
  pose proof (com_returns_failure h) as [Hc1 Hc2].
  assert (Hin : forall ev, is_Input ev = true ->
                  is_Print ev = false /\ is_engine_event ev = false)
    by (intros ev Hev; destruct ev; try discriminate; auto).
  assert (Hlc : forall ev, is_lifecycle_event ev = true -> is_Input ev = false)
    by (intros ev Hev; destruct ev; try discriminate; auto).
  assert (Hpd : forall ev, is_Print ev || is_document_event ev = true ->
                  is_Input ev = false)
    by (intros ev Hev; destruct ev; try discriminate; auto).
  assert (Hpr : forall ev, is_Print ev = true -> is_Input ev = false)
    by (intros ev Hev; destruct ev; try discriminate; auto).
  rewrite count_app.
  replace (count is_Input (trace (print_intro w (working_dir w)))) with 0%nat
    by reflexivity.
  destruct (list_docx_files (flavour w) (folder w) (working_dir w))
    as [|first others] eqn:E.
  - rewrite (run_convert_all_empty h w _ E), trace_pair.
    split; [|congruence]. intros _. split; [reflexivity|].
    rewrite last_app_nonempty by discriminate. reflexivity.
  - assert (Hne : list_docx_files (flavour w) (folder w) (working_dir w) <> [])
      by (rewrite E; discriminate).
    rewrite (run_convert_all h w _ Hne). rewrite E.
    assert (Ha : count is_Input (trace (announce w (first :: others))) = 0%nat)
      by (apply (count_none is_Input is_Print);
          [exact Hpr|apply announce_prints]).
    assert (Hj : forall total,
               count is_Input
                 (trace (convert_jobs w total 1 (first :: others))) = 0%nat)
      by (intros total; apply (count_none is_Input _ _ Hpd),
            convert_jobs_events).
    destruct (engine_obtainable w).
    + destruct (session_failure h) as [msg|]; rewrite trace_pair.
      * split.
        -- intros [H|[H|H]]; [discriminate H|discriminate H|].
           specialize (Hc1 H). discriminate Hc1.
        -- intros _ _ _. rewrite !count_app, Ha, HI.
           rewrite (count_session_events is_Input h _ Hlc), Hj.
           destruct (session_starts h); reflexivity.
      * split; [|intros _ _ H; rewrite (Hc2 eq_refl) in H; discriminate H].
        intros _. split.
        -- rewrite !count_app, Ha, HI.
           rewrite (count_session_events is_Input h _ Hlc), Hj.
           rewrite summary_run, trace_pair.
           destruct (session_starts h); reflexivity.
        -- rewrite summary_run, trace_pair.
           rewrite !List.app_assoc.
           rewrite last_app_nonempty by discriminate. reflexivity.
    + split; [|discriminate]. intros _.
      destruct (HF eq_refl) as (Hl & Hn & _).
      destruct (input_answer h); rewrite trace_pair.
      * split; [rewrite count_app, Ha, HI; reflexivity|].
        rewrite List.app_assoc, last_app_nonempty by exact Hn. exact Hl.
      * split; [rewrite count_app, Ha, HI; reflexivity|].
        rewrite List.app_assoc, last_app_nonempty by exact Hn. exact Hl.
Qed.

(** X7.  The installation through pip is attempted at most once per run,
    and only when files were found and the first import failed; when
    pywin32 imports at once the dependency check does nothing but the two
    imports. *)
Theorem pip_only_when_needed (w : world) :
  count is_PipInstall (trace (main w)) =
    match discovered w with
    | [] => 0%nat
    | _ :: _ => if imports_ok (import_module w) then 0%nat else 1%nat
    end /\
  (imports_ok (import_module w) = true ->
   ensure_pywin32 w =
   ([Import "pythoncom" None; Import "win32com.client" None], Ok tt)).
Proof.
  destruct (ensure_pywin32_console w) as (_ & HP & _ & HS).
  split; [|exact HS].
  rewrite main_run, trace_pair, count_app.
  replace (count is_PipInstall (trace (print_intro w (working_dir w))))
    with 0%nat by reflexivity.
  rewrite count_run_setup
    by (intros ev Hev; destruct ev; try discriminate; auto).
  unfold discovered.
  destruct (list_docx_files (flavour w) (folder w) (working_dir w));
    [reflexivity|].
  rewrite HP. unfold count.
  destruct (engine_obtainable w), (imports_ok (import_module w)); reflexivity.
Qed.

(** X8.  When files were found and the integration layer cannot be
    obtained, the run shows the text of the failure after [Error details:],
    asks for the Enter key and ends with the exit of status 1; it performs
    no COM or Word event and attempts no job. *)
Theorem fatal_exit_report (w : world) (base_dir : string) :
  list_docx_files (flavour w) (folder w) base_dir <> [] ->
  engine_obtainable w = false ->
  let tr := trace (convert_all_docx_in_folder w base_dir) in
  outcome (convert_all_docx_in_folder w base_dir) = Raise (SystemExit 1) /\
  count is_engine_event tr = 0%nat /\
  List.last tr Quit = Input (Str.nl ++ "Press Enter to exit...") /\
  exists msg, fatal_message w = Some msg /\
              In (Print ("Error details: " ++ msg)) tr.
Proof.
  intros Hne Hob tr. unfold tr.
  rewrite (convert_all_run w base_dir Hne), Hob, trace_pair, outcome_pair.
  destruct (ensure_pywin32_console w) as (_ & _ & HF & _).
  destruct (HF Hob) as (Hl & Hn & msg & Hm & Hin).
  destruct (announce_quiet w (list_docx_files (flavour w) (folder w) base_dir))
    as [_ Ha].
  destruct (ensure_pywin32_run w) as [_ He].
  split; [reflexivity|]. split; [|split].
  - rewrite count_app.
    rewrite (count_quiet is_engine_event _ (fun ev H => H) Ha),
      (count_quiet is_engine_event _ (fun ev H => H) He). reflexivity.
  - rewrite last_app_nonempty by exact Hn. exact Hl.
  - exists msg. split; [exact Hm|]. apply List.in_or_app. right. exact Hin.
Qed.

Lemma fatal_exit_report_witness :
  outcome (convert_all_docx_in_folder world_no_pywin32 "C:\Users\u\docs") =
  Raise (SystemExit 1).
Proof.
  apply (fatal_exit_report world_no_pywin32 "C:\Users\u\docs").
  - vm_compute. discriminate.
  - reflexivity.
Defined.

(* ================================================================== *)
(** * Further properties of the session and of the reports *)

Lemma session_events_started (h : host) (body : list event) :
  session_starts h = true ->
  session_events h body =
  ([CoInitialize; DispatchEx "Word.Application"; SetVisible false] ++
   body ++ Quit ::
   match Quit_answer h with Some _ => [] | None => [CoUninitialize] end)%list.
Proof.
  unfold session_starts, session_events.
  destruct (CoInitialize_answer h), (DispatchEx_answer h), (Visible_answer h);
    intros H; try discriminate H; reflexivity.
Qed.

Lemma session_events_not_started (h : host) (body : list event) :
  session_starts h = false ->
  document_calls (session_events h body) = [] /\
  count is_Quit (session_events h body) = 0%nat.
Proof.
  unfold session_starts, session_events.
  destruct (CoInitialize_answer h), (DispatchEx_answer h), (Visible_answer h);
    intros H; try discriminate H; split; reflexivity.
Qed.

Lemma document_calls_app (a b : list event) :
  document_calls (a ++ b) = (document_calls a ++ document_calls b)%list.
Proof. unfold document_calls. apply List.flat_map_app. Qed.

Lemma document_calls_quiet (tr : list event) :
  List.forallb (fun ev => negb (is_engine_event ev)) tr = true ->
  document_calls tr = [].
Proof.
  unfold document_calls. induction tr as [|ev tr IH]; [reflexivity|].
  simpl. intros H. apply andb_true_iff in H as [Hev Htr].
  rewrite (IH Htr). destruct ev; try discriminate Hev; reflexivity.
Qed.

(** X9.  When files were found, the integration layer is obtained and the
    three calls before the [try] return, the run has the shape: console and
    set-up events, then [CoInitialize], the start of Word and the write that
    hides it, then prints and document calls only, then [Quit]; after a
    [Quit] that returns come [CoUninitialize] and console events only, after
    a [Quit] that raises comes nothing.  Word is thus hidden before any
    document is opened and no document is touched before the start or after
    the quit.  When one of the three calls raises, no document is touched
    and [Quit] is not called.  When no file is found or the integration
    layer is not obtained, no COM or Word event occurs. *)
Theorem word_used_only_in_session (h : host) (w : world) (base_dir : string) :
  let docx_files := list_docx_files (flavour w) (folder w) base_dir in
  let tr := trace (Run.convert_all_docx_in_folder h w base_dir) in
  (docx_files <> [] -> engine_obtainable w = true ->
   session_starts h = true ->
   exists before session after,
     tr = (before ++
           [CoInitialize; DispatchEx "Word.Application"; SetVisible false] ++
           session ++ Quit :: after)%list /\
     List.forallb (fun ev => negb (is_engine_event ev)) before = true /\
     List.forallb (fun ev => is_Print ev || is_document_event ev) session
       = true /\
     match Quit_answer h with
     | Some _ => after = []
     | None =>
         exists console,
           after = CoUninitialize :: console /\
           List.forallb (fun ev => negb (is_engine_event ev)) console = true
     end) /\
  (docx_files <> [] -> engine_obtainable w = true ->
   session_starts h = false ->
   document_calls tr = [] /\ count is_Quit tr = 0%nat) /\
  (docx_files = [] \/ engine_obtainable w = false ->
   count is_engine_event tr = 0%nat).
Proof.
  intros docx_files tr.
  assert (Hquiet : docx_files <> [] ->
            List.forallb (fun ev => negb (is_engine_event ev))
              (trace (announce w docx_files) ++ trace (ensure_pywin32 w) ++
               [Print (Str.nl ++ "Starting conversion using Microsoft Word...")])
            = true).
  { intros _. destruct (announce_quiet w docx_files) as [_ Ha].
    destruct (ensure_pywin32_run w) as [_ He].
    rewrite !List.forallb_app, Ha, He. reflexivity. }
  split; [|split].
  - intros Hne Hob Hst. unfold tr.
    rewrite (run_convert_all h w base_dir Hne), Hob. fold docx_files.
    exists (trace (announce w docx_files) ++ trace (ensure_pywin32 w) ++
            [Print (Str.nl ++ "Starting conversion using Microsoft Word...")])%list,
      (trace (convert_jobs w (Z.of_nat (List.length docx_files)) 1 docx_files)).
    rewrite (session_events_started h _ Hst).
    unfold session_starts, session_failure in *.
    destruct (CoInitialize_answer h), (DispatchEx_answer h),
      (Visible_answer h); try discriminate Hst.
    destruct (Quit_answer h) as [msg|].
    + exists []. rewrite trace_pair.
      split; [rewrite <- !List.app_assoc; reflexivity|].
      split; [exact (Hquiet Hne)|].
      split; [apply convert_jobs_events|reflexivity].
    + destruct (CoUninitialize_answer h) as [msg|].
      * exists [CoUninitialize]. rewrite trace_pair.
        split; [rewrite <- !List.app_assoc; reflexivity|].
        split; [exact (Hquiet Hne)|].
        split; [apply convert_jobs_events|].
        exists []. split; reflexivity.
      * exists (CoUninitialize :: trace (summary w docx_files)).
        rewrite trace_pair.
        split; [rewrite <- !List.app_assoc; reflexivity|].
        split; [exact (Hquiet Hne)|].
        split; [apply convert_jobs_events|].
        exists (trace (summary w docx_files)).
        split; [reflexivity|]. rewrite summary_run. reflexivity.
  - intros Hne Hob Hst. unfold tr.
    rewrite (run_convert_all h w base_dir Hne), Hob. fold docx_files.
    destruct (session_events_not_started h
                (trace (convert_jobs w (Z.of_nat (List.length docx_files)) 1
                          docx_files)) Hst) as [Hd Hq].
    assert (Hs : session_failure h <> None).
    { intros Hs. apply com_returns_failure in Hs.
      unfold com_returns in Hs. rewrite Hst in Hs. discriminate Hs. }
    destruct (session_failure h) as [msg|]; [|congruence].
    rewrite trace_pair. split.
    + rewrite !List.app_assoc, document_calls_app, Hd.
      rewrite document_calls_quiet; [reflexivity|].
      rewrite <- List.app_assoc. exact (Hquiet Hne).
    + rewrite !List.app_assoc, count_app, Hq.
      rewrite (count_quiet is_Quit);
        [reflexivity
        |intros ev Hev; destruct ev; try discriminate Hev; reflexivity
        |rewrite <- List.app_assoc; exact (Hquiet Hne)].
  - intros [E|Hob]; unfold tr.
    + rewrite (run_convert_all_empty h w base_dir E). reflexivity.
    + destruct docx_files as [|first others] eqn:E.
      * rewrite (run_convert_all_empty h w base_dir E). reflexivity.
      * assert (Hne : list_docx_files (flavour w) (folder w) base_dir <> [])
          by (unfold docx_files in E; rewrite E; discriminate).
        rewrite (run_convert_all h w base_dir Hne), Hob, trace_pair, count_app.
        destruct (announce_quiet w
                    (list_docx_files (flavour w) (folder w) base_dir))
          as [_ Ha].
        destruct (ensure_pywin32_run w) as [_ He].
        rewrite (count_quiet is_engine_event _ (fun ev H => H) Ha),
          (count_quiet is_engine_event _ (fun ev H => H) He). reflexivity.
Qed.

Lemma convert_job_status_lines (w : world) (total index : Z) (p : string) :
  count is_ok_line (trace (convert_job w total index p)) =
    (match job_failure w p with None => 1 | Some _ => 0 end)%nat /\
  count is_error_line (trace (convert_job w total index p)) =
    (match job_failure w p with None => 0 | Some _ => 1 end)%nat.
Proof.
  rewrite convert_job_run, trace_pair, !count_app.
  assert (Hc : count is_ok_line (job_calls w p) = 0%nat /\
               count is_error_line (job_calls w p) = 0%nat).
  { unfold job_calls. destruct (Documents_Open w p); [split; reflexivity|].
    destruct (Export_As_Fixed_Format w p (pdf_path_of w p)); split; reflexivity. }
  destruct Hc as [Hc1 Hc2]. rewrite Hc1, Hc2.
  destruct (job_failure w p); split; reflexivity.
Qed.

(** X10.  The loop prints one status line per job: as many [Status: OK]
    lines as jobs that ended well, as many [Status: ERROR] lines as jobs
    that raised, and together as many as there are files. *)
Theorem status_lines_count_outcomes (w : world) (total start : Z)
  (docx_files : list string) :
  let tr := trace (convert_jobs w total start docx_files) in
  count is_ok_line tr = succeeded w docx_files /\
  count is_error_line tr = failed w docx_files /\
  (succeeded w docx_files + failed w docx_files)%nat = List.length docx_files.
Proof.
  revert start. induction docx_files as [|p rest IH]; intros start.
  - repeat split.
  - destruct (IH (start + 1)) as (Hok & Herr & Hsum).
    destruct (convert_job_status_lines w total start p) as [Jok Jerr].
    cbv zeta. rewrite convert_jobs_cons, trace_pair, !count_app.
    rewrite Hok, Herr, Jok, Jerr.
    unfold succeeded, failed in *. simpl List.filter. simpl List.length at 3.
    destruct (job_failure w p); simpl; repeat split; lia.
Qed.

(** X11.  For a batch of one file the closing report says
    [Created PDF file: <name>.pdf] even when the conversion of that file
    failed: the error report of the job and that line are both in the
    trace. *)
Theorem single_file_report_ignores_failure (w : world)
  (base_dir docx_path msg : string) :
  list_docx_files (flavour w) (folder w) base_dir = [docx_path] ->
  engine_obtainable w = true ->
  job_failure w docx_path = Some msg ->
  exists before,
    trace (convert_all_docx_in_folder w base_dir) =
    (before ++ error_report w 1 1 docx_path msg ++
     [ Quit; CoUninitialize;
       Print (Str.nl ++ "All conversions finished.");
       Print ("Created PDF file: "
                ++ OsPath.basename (flavour w) (pdf_path_of w docx_path));
       Input (Str.nl ++ "Press Enter to exit...") ])%list.
Proof.
  intros E Hob Hfail.
  assert (Hne : list_docx_files (flavour w) (folder w) base_dir <> [])
    by (rewrite E; discriminate).
  rewrite (convert_all_run w base_dir Hne), Hob, trace_pair, E.
  rewrite summary_run, trace_pair.
  change (Z.of_nat (List.length [docx_path])) with 1.
  rewrite convert_jobs_cons, trace_pair, convert_job_run, trace_pair, Hfail.
  exists (trace (announce w [docx_path]) ++ trace (ensure_pywin32 w) ++
          [ Print (Str.nl ++ "Starting conversion using Microsoft Word...");
            CoInitialize; DispatchEx "Word.Application"; SetVisible false ] ++
          job_header w 1 1 docx_path ++ job_calls w docx_path)%list.
  rewrite <- !List.app_assoc. reflexivity.
Qed.

Lemma single_file_report_ignores_failure_witness :
  exists before,
    trace (convert_all_docx_in_folder world_one_locked "C:\Users\u\one") =
    (before ++
     [ Print "  Status: ERROR (see details below) | Progress: 100%";
       Print "  Error while processing report.docx:";
       Print "    The file is locked.";
       Quit; CoUninitialize;
       Print (Str.nl ++ "All conversions finished.");
       Print "Created PDF file: report.pdf";
       Input (Str.nl ++ "Press Enter to exit...") ])%list.
Proof.
  apply (single_file_report_ignores_failure world_one_locked "C:\Users\u\one"
           "C:\Users\u\one\report.docx" "The file is locked.");
    reflexivity.
Defined.

(* ================================================================== *)
(** * Further properties of discovery and of the paths *)

Section MoreDiscovery.

Variable fl : OsPath.flavour.

Lemma basename_join (d n : string) :
  valid_name fl n = true -> OsPath.basename fl (OsPath.join fl d n) = n.
Proof.
  intros Hn. rewrite (join_rel fl _ _ Hn).
  apply basename_dirlike; [apply dir_prefix_dirlike|].
  apply (valid_name_inv fl n Hn).
Qed.

Lemma basename_hd (l : list string) :
  OsPath.basename fl (List.hd EmptyString l) =
  List.hd EmptyString (List.map (OsPath.basename fl) l).
Proof. destruct l; [destruct fl; reflexivity|reflexivity]. Qed.

Lemma str_app_inv_head (a b c : string) : a ++ b = a ++ c -> b = c.
Proof.
  induction a as [|x a IH]; simpl; intros H; [exact H|].
  injection H as H. apply IH. exact H.
Qed.

Lemma str_app_inv_tail (a b c : string) : a ++ c = b ++ c -> a = b.
Proof.
  revert b. induction a as [|x a IH]; intros b H.
  - destruct b as [|y b]; [reflexivity|]. exfalso.
    apply (f_equal String.length) in H. simpl in H.
    rewrite length_app in H. lia.
  - destruct b as [|y b].
    + exfalso. apply (f_equal String.length) in H. simpl in H.
      rewrite length_app in H. lia.
    + simpl in H. injection H as -> H. f_equal. apply IH. exact H.
Qed.

Lemma map_basename_discovered (names : list string) (base_dir : string) :
  List.forallb (valid_name fl) names = true ->
  List.map (OsPath.basename fl) (list_docx_files fl names base_dir) =
  List.filter (accepted fl) names.
Proof.
  intros Hv. rewrite (list_docx_files_spec fl names base_dir Hv).
  fold (accepted fl). rewrite List.map_map.
  rewrite <- (List.map_id (List.filter (accepted fl) names)) at 2.
  apply (map_ext_forallb (valid_name fl)).
  - apply forallb_filter. exact Hv.
  - intros n Hn. apply basename_join. exact Hn.
Qed.

Lemma NoDup_map_injective {X Y} (g : X -> Y) (l : list X) :
  (forall a b, g a = g b -> a = b) -> NoDup l -> NoDup (List.map g l).
Proof.
  intros Hg Hl. induction Hl as [|x l Hx Hl IH]; simpl; constructor.
  - intros Hin. apply List.in_map_iff in Hin as (y & Hy & Hin).
    apply Hg in Hy. subst y. contradiction.
  - exact IH.
Qed.

(** X12.  When the folder path holds none of the characters [glob] reads as
    a pattern, discovery keeps the names and their order, and adds no
    duplicates: the base names of the results are the accepted names of the
    folder in the order of the listing, and distinct entries give distinct
    paths. *)
Theorem discovery_keeps_names_and_order (names : list string)
  (base_dir : string) :
  Glob.has_magic base_dir = false ->
  List.forallb (valid_name fl) names = true ->
  List.map (OsPath.basename fl) (list_docx_files fl names base_dir) =
    List.filter (accepted fl) names /\
  (NoDup names -> NoDup (list_docx_files fl names base_dir)).
Proof.
  intros _ Hv. split; [apply map_basename_discovered; exact Hv|].
  intros Hnd. rewrite (list_docx_files_spec fl names base_dir Hv).
  fold (accepted fl).
  rewrite (map_ext_forallb (valid_name fl)
             (OsPath.join fl (glob_dirname fl base_dir))
             (fun n => dir_prefix fl (glob_dirname fl base_dir) ++ n))
    by (try (apply forallb_filter; exact Hv); intros n Hn; apply join_rel;
        exact Hn).
  apply NoDup_map_injective.
  - intros a b H. apply str_app_inv_head in H. exact H.
  - apply List.NoDup_filter. exact Hnd.
Qed.

(** [os.path.split] undoes [os.path.join] on a folder path that does not
    end with a separator. *)
Lemma split_join (d n : string) :
  d <> EmptyString -> OsPath.last_is_sep fl d = false ->
  valid_name fl n = true ->
  OsPath.split fl (OsPath.join fl d n) = (d, n).
Proof.
  intros Hd Hl Hn. rewrite (join_rel fl _ _ Hn).
  rewrite split_dirlike;
    [|apply dir_prefix_dirlike|apply (valid_name_inv fl n Hn)].
  rewrite <- glob_dirname_head, (glob_dirname_plain fl d Hd Hl). reflexivity.
Qed.

End MoreDiscovery.

Lemma discovery_keeps_names_and_order_witness :
  List.map (OsPath.basename OsPath.ntpath)
    (list_docx_files OsPath.ntpath (folder world_all_fine) "C:\Users\u\docs") =
  ["a.docx"; "b.docx"; "c.docx"].
Proof.
  rewrite (proj1 (discovery_keeps_names_and_order OsPath.ntpath
                    (folder world_all_fine) "C:\Users\u\docs" eq_refl eq_refl)).
  reflexivity.
Defined.

(** X13.  When the folder path holds none of the characters [glob] reads as
    a pattern, the pre-flight listing shows the accepted names of the
    folder, in the order of the listing and without their directory: one
    line [1 file found: <name>] for a single file, else one line per name
    and the total. *)
Theorem announce_lists_accepted_names (w : world) (base_dir : string) :
  Glob.has_magic base_dir = false ->
  List.forallb (valid_name (flavour w)) (folder w) = true ->
  let names := List.filter (accepted (flavour w)) (folder w) in
  trace (announce w (list_docx_files (flavour w) (folder w) base_dir)) =
  Print (Str.nl ++ "Files to be converted:") ::
  (if Z.of_nat (List.length names) =? 1
   then [ Print ("  1 file found: " ++ List.hd EmptyString names) ]
   else
     List.map (fun n => Print ("  - " ++ n)) names ++
     [ Print (Str.nl ++ "Total files: "
                ++ Str.of_Z (Z.of_nat (List.length names))) ])%list.
Proof.
  intros _ Hv names.
  pose proof (map_basename_discovered (flavour w) (folder w) base_dir Hv) as Hm.
  fold names in Hm.
  rewrite announce_run, trace_pair.
  assert (Hlen : List.length (list_docx_files (flavour w) (folder w) base_dir) =
                 List.length names)
    by (rewrite <- Hm, List.length_map; reflexivity).
  rewrite Hlen, basename_hd, Hm.
  rewrite <- (List.map_map (OsPath.basename (flavour w))
                (fun n => Print ("  - " ++ n))), Hm.
  reflexivity.
Qed.

Lemma announce_lists_accepted_names_witness :
  trace (announce world_all_fine
           (list_docx_files (flavour world_all_fine) (folder world_all_fine)
              "C:\Users\u\docs")) =
  [ Print (Str.nl ++ "Files to be converted:");
    Print "  - a.docx"; Print "  - b.docx"; Print "  - c.docx";
    Print (Str.nl ++ "Total files: 3") ].
Proof.
  rewrite (announce_lists_accepted_names world_all_fine "C:\Users\u\docs"
             eq_refl eq_refl).
  reflexivity.
Defined.

Lemma folder_path_inv (fl : OsPath.flavour) (d : string) :
  folder_path fl d = true ->
  d <> EmptyString /\ OsPath.last_is_sep fl d = false.
Proof.
  unfold folder_path. intros H.
  apply andb_true_iff in H as [H _]. apply andb_true_iff in H as [H1 H2].
  split.
  - intros ->. discriminate H1.
  - destruct (OsPath.last_is_sep fl d); [discriminate H2|reflexivity].
Qed.

Lemma plain_name_valid (fl : OsPath.flavour) (n : string) :
  plain_name fl n = true -> valid_name fl n = true.
Proof. unfold plain_name. intros H. apply andb_true_iff in H as [H _]. exact H. Qed.

Lemma forallb_plain_valid (fl : OsPath.flavour) (names : list string) :
  List.forallb (plain_name fl) names = true ->
  List.forallb (valid_name fl) names = true.
Proof.
  induction names as [|n names IH]; [reflexivity|]. simpl. intros H.
  apply andb_true_iff in H as [Hn H].
  rewrite (plain_name_valid fl n Hn), (IH H). reflexivity.
Qed.

(** X14.  The script works on the folder it lives in.  Let the folder path
    be not empty, not end with a separator, on Windows begin with a drive
    letter, a colon and a separator, and hold none of the characters [glob]
    reads as a pattern; let the names be free of separators and, on
    Windows, of colons.  When the path of the script is that folder path
    joined to a file name, the working folder is that folder path and the
    discovered files are the accepted names of the folder joined to it. *)
Theorem script_folder_is_searched (w : world) (d name : string) :
  folder_path (flavour w) d = true ->
  Glob.has_magic d = false ->
  plain_name (flavour w) name = true ->
  script_path w = OsPath.join (flavour w) d name ->
  List.forallb (plain_name (flavour w)) (folder w) = true ->
  working_dir w = d /\
  discovered w =
    List.map (OsPath.join (flavour w) d)
      (List.filter (accepted (flavour w)) (folder w)).
Proof.
  intros Hf _ Hn Hs Hv.
  apply folder_path_inv in Hf as [Hd Hl].
  apply plain_name_valid in Hn. apply forallb_plain_valid in Hv.
  assert (Hw : working_dir w = d).
  { unfold working_dir. rewrite Hs, (split_join _ d name Hd Hl Hn).
    reflexivity. }
  split; [exact Hw|].
  unfold discovered. rewrite Hw.
  rewrite (list_docx_files_spec (flavour w) (folder w) d Hv).
  rewrite (glob_dirname_plain (flavour w) d Hd Hl). reflexivity.
Qed.

Lemma script_folder_is_searched_witness :
  working_dir world_all_fine = "C:\Users\u\docs" /\
  discovered world_all_fine =
    List.map (OsPath.join OsPath.ntpath "C:\Users\u\docs")
      (List.filter (accepted OsPath.ntpath) (folder world_all_fine)).
Proof.
  apply (script_folder_is_searched world_all_fine "C:\Users\u\docs"
           "convert.py"); reflexivity.
Defined.

Lemma str_map_id (s : string) : Str.map (fun c => c) s = s.
Proof. induction s as [|a s IH]; simpl; [|rewrite IH]; reflexivity. Qed.

(** A discovered path is a root followed by an extension that reads [.docx],
    and its output path is the root followed by [.pdf]. *)
Lemma discovered_shape (w : world) (base_dir f : string) :
  List.forallb (valid_name (flavour w)) (folder w) = true ->
  In f (list_docx_files (flavour w) (folder w) base_dir) ->
  exists root ext,
    f = root ++ ext /\ OsPath.normcase (flavour w) ext = ".docx" /\
    pdf_path_of w f = root ++ ".pdf".
Proof.
  intros Hv Hin.
  destruct (discovered_inv (flavour w) _ _ _ Hv Hin)
    as (n & -> & _ & Hvn & Hext & _ & Hdot).
  destruct (docx_name_shape (flavour w) n Hvn Hext Hdot)
    as (x & stem & e & -> & Hx & Hnorm & Hstem & Hsep & Hnodot).
  exists (dir_prefix (flavour w) (glob_dirname (flavour w) base_dir)
          ++ String x stem), (String "." e).
  split; [symmetry; apply app_assoc|]. split; [exact Hnorm|].
  unfold pdf_path_of.
  rewrite splitext_dirlike; try assumption; [reflexivity|].
  apply dir_prefix_dirlike.
Qed.

(** X15.  Two discovered files are given the same output path only when
    their paths are equal under the case rule of the platform; on POSIX,
    where the rule is the identity, distinct files have distinct output
    paths. *)
Theorem output_paths_collide_only_up_to_case (w : world)
  (base_dir f1 f2 : string) :
  List.forallb (valid_name (flavour w)) (folder w) = true ->
  In f1 (list_docx_files (flavour w) (folder w) base_dir) ->
  In f2 (list_docx_files (flavour w) (folder w) base_dir) ->
  pdf_path_of w f1 = pdf_path_of w f2 ->
  OsPath.normcase (flavour w) f1 = OsPath.normcase (flavour w) f2 /\
  (flavour w = OsPath.posixpath -> f1 = f2).
Proof.
  intros Hv H1 H2 Heq.
  destruct (discovered_shape w base_dir f1 Hv H1) as (r1 & e1 & -> & N1 & P1).
  destruct (discovered_shape w base_dir f2 Hv H2) as (r2 & e2 & -> & N2 & P2).
  rewrite P1, P2 in Heq. apply str_app_inv_tail in Heq. subst r2.
  assert (Hn : OsPath.normcase (flavour w) (r1 ++ e1) =
               OsPath.normcase (flavour w) (r1 ++ e2)).
  { unfold OsPath.normcase in *. rewrite !map_app, N1, N2. reflexivity. }
  split; [exact Hn|].
  intros Hfl. rewrite Hfl in Hn. unfold OsPath.normcase in Hn. simpl in Hn.
  rewrite !str_map_id in Hn. exact Hn.
Qed.

Lemma output_paths_collide_only_up_to_case_witness :
  "C:\Users\u\mix\a.docx" <> "C:\Users\u\mix\a.DOCX" /\
  pdf_path_of world_two_cases "C:\Users\u\mix\a.docx" =
    pdf_path_of world_two_cases "C:\Users\u\mix\a.DOCX" /\
  OsPath.normcase OsPath.ntpath "C:\Users\u\mix\a.docx" =
    OsPath.normcase OsPath.ntpath "C:\Users\u\mix\a.DOCX" /\
  (OsPath.ntpath = OsPath.posixpath ->
   "C:\Users\u\mix\a.docx" = "C:\Users\u\mix\a.DOCX").
Proof.
  split; [discriminate|]. split; [reflexivity|].
  apply (output_paths_collide_only_up_to_case world_two_cases "C:\Users\u\mix"
           "C:\Users\u\mix\a.docx" "C:\Users\u\mix\a.DOCX").
  - reflexivity.
  - vm_compute. auto.
  - vm_compute. auto.
  - reflexivity.
Defined.

(* ================================================================== *)
(** * Further properties of the percentage *)

Lemma percent_sound_upto_inv (n : nat) (index total : Z) :
  percent_sound_upto n = true ->
  1 <= index <= total -> total <= Z.of_nat n ->
  percent_sound index total = true.
Proof.
  intros H Hi Ht. unfold percent_sound_upto in H.
  rewrite List.forallb_forall in H.
  assert (Hin : In (Z.to_nat total) (List.seq 1 n))
    by (apply List.in_seq; lia).
  specialize (H (Z.to_nat total) Hin). rewrite List.forallb_forall in H.
  assert (Hin' : In (Z.to_nat index) (List.seq 1 (Z.to_nat total)))
    by (apply List.in_seq; lia).
  specialize (H (Z.to_nat index) Hin'). rewrite !Z2Nat.id in H by lia.
  exact H.
Qed.

Lemma percent_sound_upto_200 : percent_sound_upto 200 = true.
Proof. vm_compute. reflexivity. Qed.

(** X16.  For batches of up to 200 files the percentage shown after a job
    lies between 0 and 100, never drops from one job to the next, is 100
    after the last job, and equals the floor of [100 * index / total] unless
    that quotient is a whole number, in which case it may be one less. *)
Theorem percent_within_one_of_floor (index total : Z) :
  1 <= index <= total -> total <= 200 ->
  0 <= percent index total <= 100 /\
  percent (index - 1) total <= percent index total /\
  percent total total = 100 /\
  (percent index total = 100 * index / total \/
   ((100 * index) mod total = 0 /\
    percent index total = 100 * index / total - 1)).
Proof.
  intros Hi Ht.
  assert (Hs : forall i, 1 <= i <= total -> percent_sound i total = true).
  { intros i Hi'.
    apply (percent_sound_upto_inv 200 i total percent_sound_upto_200 Hi').
    exact Ht. }
  pose proof (Hs index Hi) as H. pose proof (Hs total ltac:(lia)) as Hlast.
  unfold percent_sound in H, Hlast. cbv zeta in H, Hlast.
  rewrite !andb_true_iff in H, Hlast.
  destruct H as ((((H0 & H100) & Hmono) & _) & Hfloor).
  destruct Hlast as ((_ & Hl) & _). rewrite Z.eqb_refl in Hl.
  apply Z.leb_le in H0, H100, Hmono. apply Z.eqb_eq in Hl.
  repeat split; try assumption.
  destruct ((100 * index) mod total =? 0) eqn:Em.
  - apply orb_true_iff in Hfloor as [Hf|Hf]; apply Z.eqb_eq in Hf.
    + left. exact Hf.
    + right. split; [apply Z.eqb_eq; exact Em|exact Hf].
  - left. apply Z.eqb_eq. exact Hfloor.
Qed.

Lemma percent_within_one_of_floor_witness :
  0 <= percent 29 50 <= 100 /\
  percent (29 - 1) 50 <= percent 29 50 /\
  percent 50 50 = 100 /\
  (percent 29 50 = 100 * 29 / 50 \/
   ((100 * 29) mod 50 = 0 /\ percent 29 50 = 100 * 29 / 50 - 1)).
Proof.
  apply (percent_within_one_of_floor 29 50); lia.
Defined.
